(** * StreetViewDownloader: batching, resumption, failure log and projections

  A shallow embedding of [streetscope/download/streetview_downloader.py].
  The class drives three things: it reads panorama identifiers from a CSV
  file and drops the ones already present in the output directory, it feeds
  the remaining identifiers to [ImageTool.dwl_multiple] in groups while
  counting successes and failures, and it finally converts every panorama on
  disk to the requested styles.

  The Python methods become functions in a state-and-exception monad over an
  explicit world (file system, random source, log of external calls).  The
  collaborators whose code is not part of the module ([ImageTool],
  [ImageTransformer], [cv2], [pandas]) are either parameters of the
  development or symbolic. *)

From Stdlib Require Import ZArith QArith String Ascii List Lia DecimalString.
From stdpp Require Import base list strings gmap.

Set Warnings "-register-all".

Local Open Scope string_scope.
Local Open Scope Z_scope.

(** ** Python strings *)

Module PyStr.

(** [s.split(sep)[0]] for a one-character separator: the part of [s] before
    the first [sep], all of [s] when there is none. *)
Fixpoint split_0 (sep : ascii) (s : string) : string :=
  match s with
  | EmptyString => EmptyString
  | String c s' =>
      if Ascii.eqb c sep then EmptyString else String c (split_0 sep s')
  end.

(** [s.replace(old, new)] for a non-empty [old]: every occurrence of [old],
    found from the left and without overlap, becomes [new].  [skip] counts the
    characters of a match that are still to be passed over. *)
Fixpoint replace_go (old new : string) (skip : nat) (s : string) : string :=
  match s with
  | EmptyString => EmptyString
  | String c s' =>
      match skip with
      | S k => replace_go old new k s'
      | O =>
          if String.prefix old s
          then new +:+ replace_go old new (String.length old - 1) s'
          else String c (replace_go old new 0 s')
      end
  end.

Definition replace (old new s : string) : string := replace_go old new 0 s.

(** [old in s] for a non-empty [old]. *)
Fixpoint occurs (old s : string) : bool :=
  match s with
  | EmptyString => false
  | String _ s' => String.prefix old s || occurs old s'
  end.

Fixpoint endswith_slash (s : string) : bool :=
  match s with
  | EmptyString => false
  | String c EmptyString => Ascii.eqb c "/"
  | String _ s' => endswith_slash s'
  end.

Definition startswith_slash (s : string) : bool :=
  match s with
  | String c _ => Ascii.eqb c "/"
  | EmptyString => false
  end.

Fixpoint contains_slash (s : string) : bool :=
  match s with
  | EmptyString => false
  | String c s' => Ascii.eqb c "/" || contains_slash s'
  end.

(** [s.rstrip('/')] *)
Fixpoint rstrip_slash (s : string) : string :=
  match s with
  | EmptyString => EmptyString
  | String c s' =>
      match rstrip_slash s' with
      | EmptyString => if Ascii.eqb c "/" then EmptyString else String c EmptyString
      | r => String c r
      end
  end.

(** [s[:s.rfind('/') + 1]]: [s] up to and including its last slash. *)
Fixpoint upto_last_slash (s : string) : string :=
  match s with
  | EmptyString => EmptyString
  | String c s' => if contains_slash s then String c (upto_last_slash s') else EmptyString
  end.

(** ['%s' % n] for an integer. *)
Definition of_int (n : Z) : string := NilZero.string_of_int (Z.to_int n).

(** [int(x)] for a float, on the rationals: truncation toward zero. *)
Definition int_of_float (x : Q) : Z := Z.quot (Qnum x) (Z.pos (Qden x)).

(** The functions below take the characters of a string as code points
    below 256. *)

(** [s.split(sep)] for a one-character separator. *)
Fixpoint split (sep : ascii) (s : string) : list string :=
  match s with
  | EmptyString => [EmptyString]
  | String c s' =>
      if Ascii.eqb c sep then EmptyString :: split sep s'
      else match split sep s' with
           | [] => [String c EmptyString]
           | h :: t => String c h :: t
           end
  end.

(** [c.lower()]: the letters A to Z and the capital letters of Latin-1 move
    up by 32. *)
Definition lower_char (c : ascii) : ascii :=
  let k := nat_of_ascii c in
  if ((65 <=? k) && (k <=? 90)
      || (192 <=? k) && (k <=? 222) && negb (k =? 215))%nat
  then ascii_of_nat (k + 32) else c.

Fixpoint lower (s : string) : string :=
  match s with
  | EmptyString => EmptyString
  | String c s' => String (lower_char c) (lower s')
  end.

(** [c.isspace()] *)
Definition isspace (c : ascii) : bool :=
  let k := nat_of_ascii c in
  ((9 <=? k) && (k <=? 13) || (28 <=? k) && (k <=? 32)
   || (k =? 133) || (k =? 160))%nat.

Fixpoint lstrip (s : string) : string :=
  match s with
  | EmptyString => EmptyString
  | String c s' => if isspace c then lstrip s' else s
  end.

Fixpoint rstrip (s : string) : string :=
  match s with
  | EmptyString => EmptyString
  | String c s' =>
      match rstrip s' with
      | EmptyString => if isspace c then EmptyString else String c EmptyString
      | r => String c r
      end
  end.

(** [s.strip()] *)
Definition strip (s : string) : string := lstrip (rstrip s).

(** The lines a text file yields when it is iterated over: each with its
    newline, the last one possibly without. *)
Fixpoint readlines (s : string) : list string :=
  match s with
  | EmptyString => []
  | String c s' =>
      if Ascii.eqb c (ascii_of_nat 10) then String c EmptyString :: readlines s'
      else match readlines s' with
           | [] => [String c EmptyString]
           | l :: ls => String c l :: ls
           end
  end.

End PyStr.

(** [os.path.join(a, b)] of [posixpath]. *)
Definition os_path_join (a b : string) : string :=
  if PyStr.startswith_slash b then b
  else if String.eqb a "" || PyStr.endswith_slash a then a +:+ b
  else a +:+ "/" +:+ b.

(** [os.path.dirname(p)] of [posixpath]: the part before the last slash,
    without its trailing slashes unless it is made of slashes only. *)
Definition os_path_dirname (p : string) : string :=
  let head := PyStr.upto_last_slash p in
  if String.eqb (PyStr.rstrip_slash head) "" then head else PyStr.rstrip_slash head.


(** ** The world outside the downloader *)

(** Images are symbolic: a term records how an image was obtained.  [Tile] is
    what the tile service returned for one grid cell, [Canvas] the stitched
    panorama, [Fisheye] and [Perspective] the results of the two
    [ImageTransformer] methods, applied to whatever [cv2.imread] returned
    ([None] for an unreadable file). *)
Inductive image : Type :=
| Tile (pid : string) (zoom : Z) (x y : nat)
| Canvas (h_tiles v_tiles : nat) (tiles : list image) (cropped : bool)
| Fisheye (src : option image)
| Perspective (src : option image) (FOV theta phi height width : Z).

(** File contents.  [Table col] is a CSV file, given by the values
    [pd.read_csv(...).iloc[:,0]] yields for it; [Then d s] is a file that is
    not plain text and had the text [s] appended to it. *)
Inductive data : Type :=
| Text (s : string)
| Img (i : image)
| Table (column0 : list string)
| Then (d : data) (s : string).

Inductive node : Type :=
| Dir
| File (d : data).

(** The file system maps paths to nodes. *)
Abbreviation filesystem := (gmap string node).

Inductive exn : Type :=
| ValueError (msg : string)
| ZeroDivisionError
| OSError
| FetchError.

Inductive result (A : Type) : Type :=
| Ok (a : A)
| Raise (e : exn).
Arguments Ok {A} a.
Arguments Raise {A} e.

(** Calls that leave the process: batches handed to [ImageTool.dwl_multiple]
    with all ten arguments, and [time.sleep] with its duration in tenths of a
    second. *)
Inductive event : Type :=
| Call_dwl_multiple (panos names : list string) (nthreads zoom v_tiles h_tiles : Z)
    (out_path : string) (uas : list string) (cropped full : bool)
| Call_sleep (tenths : Z).

(** [rng] is the supply of raw draws of the module-level random generator
    (an exhausted supply yields 0); [calls] is in chronological order. *)
Record world : Type := World {
  fs : filesystem;
  rng : list nat;
  calls : list event
}.

Definition set_fs (f : filesystem → filesystem) (w : world) : world :=
  World (f (fs w)) (rng w) (calls w).

Definition log_call (e : event) (w : world) : world :=
  World (fs w) (rng w) (calls w ++ [e]).

(** ** State and exceptions *)

Definition M (A : Type) : Type := world → result A * world.

Definition ret {A} (a : A) : M A := λ w, (Ok a, w).

Definition raise {A} (e : exn) : M A := λ w, (Raise e, w).

Definition bind {A B} (m : M A) (k : A → M B) : M B :=
  λ w, match m w with
       | (Ok a, w') => k a w'
       | (Raise e, w') => (Raise e, w')
       end.

(** [try: m  except Exception as e: h e] *)
Definition try_except {A} (m : M A) (h : exn → M A) : M A :=
  λ w, match m w with
       | (Ok a, w') => (Ok a, w')
       | (Raise e, w') => h e w'
       end.

Notation "'let*' x ':=' m 'in' k" := (bind m (λ x, k))
  (at level 10, x name, m at level 100, k at level 200).

(** [for x in l: st = body x st] *)
Fixpoint for_each {A St} (body : A → St → M St) (l : list A) (st : St) : M St :=
  match l with
  | [] => ret st
  | x :: l' => let* st' := body x st in for_each body l' st'
  end.

(** ** File system primitives *)

Fixpoint str_drop (n : nat) (s : string) : string :=
  match n, s with
  | S n', String _ s' => str_drop n' s'
  | _, _ => s
  end.

(** The name under which path [p] shows up in the listing of directory [d],
    if [p] is a direct child of [d]. *)
Definition child_of (d p : string) : option string :=
  let pre := if PyStr.endswith_slash d then d else d +:+ "/" in
  if String.prefix pre p then
    let n := str_drop (String.length pre) p in
    if String.eqb n "" || PyStr.contains_slash n then None else Some n
  else None.

Definition listing (d : string) (f : filesystem) : list string :=
  omap (child_of d) (map_to_list f).*1.

(** A path is recorded in the file system under the spelling by which the
    downloader reaches it; trailing slashes apart, two spellings of one path
    ([.] and [..] components, doubled slashes, links) are not identified.
    Permissions are not modelled.

    [os.path.isdir(d)]: a directory is there when it is recorded as one.  A
    path made of slashes only is the root, which is always there; the empty
    path names nothing. *)
Definition os_path_isdir (f : filesystem) (d : string) : bool :=
  if String.eqb d "" then false
  else if String.eqb (PyStr.rstrip_slash d) "" then true
  else match f !! PyStr.rstrip_slash d with
       | Some Dir => true
       | _ => false
       end.

(** The spelling under which the entries of directory [d] are looked up. *)
Definition dir_key (d : string) : string :=
  if String.eqb (PyStr.rstrip_slash d) "" then d else PyStr.rstrip_slash d.

(** [os.listdir(d)]: [FileNotFoundError] for a path that does not exist,
    [NotADirectoryError] for a regular file. *)
Definition os_listdir (d : string) : M (list string) :=
  λ w, if os_path_isdir (fs w) d then (Ok (listing (dir_key d) (fs w)), w)
       else (Raise OSError, w).

(** The directories above [p], outermost first, as the recursion of
    [os.makedirs] meets them through [os.path.split]: the parts of [p] in
    front of a slash, the root and the empty path left out.  [acc] is the
    part of the path already passed. *)
Fixpoint heads (acc p : string) : list string :=
  match p with
  | EmptyString => []
  | String c p' =>
      (if Ascii.eqb c "/" && negb (String.eqb acc "")
          && negb (PyStr.endswith_slash acc)
       then [acc] else [])
      ++ heads (acc +:+ String c EmptyString) p'
  end.

(** One step of [os.makedirs]: [os.mkdir(d)], unless the directory is there
    already. *)
Definition mkdir_missing (d : string) : M unit :=
  λ w, match fs w !! d with
       | None => (Ok tt, set_fs (insert d Dir) w)
       | Some Dir => (Ok tt, w)
       | Some (File _) => (Raise OSError, w)
       end.

(** [os.makedirs(p, exist_ok=True)]: the missing directories above [p] are
    created on the way, outermost first; a regular file at [p] or above it
    makes the call raise ([FileExistsError], [NotADirectoryError]), and so
    does the empty path ([FileNotFoundError]). *)
Definition os_makedirs (p : string) : M unit :=
  if String.eqb p "" then raise OSError
  else
    let k := PyStr.rstrip_slash p in
    if String.eqb k "" then ret tt
    else for_each (λ d _, mkdir_missing d) (heads "" k ++ [k]) tt.

Definition append_data (d : data) (s : string) : data :=
  match d with
  | Text t => Text (t +:+ s)
  | Then d' t => Then d' (t +:+ s)
  | _ => Then d s
  end.

(** A file can be created at [path]: the path is not empty, does not end in
    a slash, and the directory it lies in is there (the current directory for
    a path without a slash). *)
Definition creatable (f : filesystem) (path : string) : bool :=
  negb (String.eqb path "") && negb (PyStr.endswith_slash path)
  && (String.eqb (os_path_dirname path) "" || os_path_isdir f (os_path_dirname path)).

(** [open(path, 'a+')]: the file is created when missing and never
    truncated.  [IsADirectoryError] for a directory, [FileNotFoundError] or
    [NotADirectoryError] when the file is missing and cannot be created. *)
Definition open_append (path : string) : M unit :=
  λ w, match fs w !! path with
       | None =>
           if creatable (fs w) path
           then (Ok tt, set_fs (insert path (File (Text ""))) w)
           else (Raise OSError, w)
       | Some (File _) => (Ok tt, w)
       | Some Dir => (Raise OSError, w)
       end.

(** [fw.write(s)] on a handle opened by [open_append]. *)
Definition write_append (path s : string) : M unit :=
  λ w, match fs w !! path with
       | Some (File d) => (Ok tt, set_fs (insert path (File (append_data d s))) w)
       | _ => (Raise OSError, w)
       end.

(** [cv2.imread(path, cv2.IMREAD_COLOR)]: [None] when nothing can be decoded. *)
Definition cv2_imread (path : string) : M (option image) :=
  λ w, (Ok match fs w !! path with
           | Some (File (Img i)) => Some i
           | _ => None
           end, w).

(** [cv2.imwrite(path, img)].  The encoder's own failures (an extension it
    does not know) are not modelled, and the directory of [path] is taken to
    be there: [_transform_image] creates it before any image is written. *)
Definition cv2_imwrite (path : string) (img : image) : M unit :=
  λ w, (Ok tt, set_fs (insert path (File (Img img))) w).

(** [pd.read_csv(path).iloc[:,0]] *)
Definition pd_read_csv_column0 (path : option string) : M (list string) :=
  λ w, match path with
       | None => (Raise (ValueError "Invalid file path or buffer object type"), w)
       | Some p =>
           match fs w !! p with
           | Some (File (Table col)) => (Ok col, w)
           | _ => (Raise OSError, w)
           end
       end.

(** [Series.unique()]: the distinct values in order of appearance ([seen] is
    the hash table of values met so far). *)
Fixpoint unique_go (seen : gset string) (l : list string) : list string :=
  match l with
  | [] => []
  | x :: l' =>
      if decide (x ∈ seen) then unique_go seen l'
      else x :: unique_go ({[x]} ∪ seen) l'
  end.

Definition pd_unique (l : list string) : list string := unique_go ∅ l.

(** ** The random module *)

Definition next_raw : M nat :=
  λ w, (Ok (hd 0%nat (rng w)), World (fs w) (tl (rng w)) (calls w)).

(** [k] draws without replacement: each draw picks a position of what is
    left of the pool and removes it. *)
Fixpoint sample_go {A} (k : nat) (pool : list A) : M (list A) :=
  match k with
  | O => ret []
  | S k' =>
      let* r := next_raw in
      let j := (r mod length pool)%nat in
      match pool !! j with
      | None => ret []
      | Some x => let* rest := sample_go k' (delete j pool) in ret (x :: rest)
      end
  end.

(** [random.sample(population, k)] *)
Definition random_sample {A} (population : list A) (k : Z) : M (list A) :=
  if (k <? 0) || (Z.of_nat (length population) <? k)
  then raise (ValueError "Sample larger than population or is negative")
  else sample_go (Z.to_nat k) population.

(** [random.randint(a, b)] *)
Definition random_randint (a b : Z) : M Z :=
  let* r := next_raw in ret (a + Z.of_nat r mod (b - a + 1)).

(** [time.sleep(tenths * 0.1)] *)
Definition time_sleep (tenths : Z) : M unit :=
  λ w, (Ok tt, log_call (Call_sleep tenths) w).

(** ** The tile fetcher *)

Module TileFetcher.

(** Modelled from the spec: the tile service, which is reached through
    [streetscope.download.utils.imtool] and is not part of the module at hand.
    One request per (identifier, zoom, tile-x, tile-y), carrying a user agent;
    the answer says whether the request succeeded. *)
Definition network : Type := string → Z → nat → nat → string → bool.

(** Modelled from the spec: the grid of [ImageTool], which is missing; its
    cells in row-major order, tile (0,0) first. *)
Definition grid (h_tiles v_tiles : nat) : list (nat * nat) :=
  flat_map (λ y, map (λ x, (x, y)) (seq 0 h_tiles)) (seq 0 v_tiles).

(** Modelled from the spec: the request for one tile of [ImageTool], which
    is missing; the tile when the service answers, nothing otherwise. *)
Definition request_tile (net : network) (id : string) (zoom : Z)
    (user_agent : string) (c : nat * nat) : option image :=
  if net id zoom c.1 c.2 user_agent then Some (Tile id zoom c.1 c.2) else None.

(** Modelled from the spec: [fetch_and_assemble] of section 4.2, the part of
    [ImageTool] that handles one identifier.  Every grid cell is requested; a
    single failed request aborts the identifier and nothing is written; on
    full success the tiles are composited in row-major order and the raster is
    written to [<out_path>/<id>.jpg] before returning. *)
Definition fetch_and_assemble (net : network) (id : string) (zoom : Z)
    (h_tiles v_tiles : nat) (user_agent : string) (crop : bool)
    (out_path : string) (f : filesystem) : result unit * filesystem :=
  match mapM (request_tile net id zoom user_agent) (grid h_tiles v_tiles) with
  | Some tiles =>
      (Ok tt, <[os_path_join out_path (id +:+ ".jpg")
                  := File (Img (Canvas h_tiles v_tiles tiles crop))]> f)
  | None => (Raise FetchError, f)
  end.

(** Modelled from the spec: the barrier of the worker pool of [ImageTool],
    which is missing.  One task per identifier of the batch, each with its
    own user agent; the batch waits for all of them and reports whether every
    one succeeded. *)
Fixpoint run_batch (net : network) (tasks : list (string * string)) (zoom : Z)
    (h_tiles v_tiles : nat) (crop : bool) (out_path : string)
    (f : filesystem) : bool * filesystem :=
  match tasks with
  | [] => (true, f)
  | (id, ua) :: rest =>
      let '(r, f1) :=
        fetch_and_assemble net id zoom h_tiles v_tiles ua crop out_path f in
      let '(ok, f2) := run_batch net rest zoom h_tiles v_tiles crop out_path f1 in
      (match r with Ok _ => ok | Raise _ => false end, f2)
  end.

(** Modelled from the spec: [ImageTool.dwl_multiple], the worker pool of
    section 4.1 steps 2 to 4, with the argument list of its call site. *)
Definition dwl_multiple (net : network) (panos names : list string)
    (nthreads zoom v_tiles h_tiles : Z) (out_path : string)
    (uas : list string) (cropped full : bool)
    (f : filesystem) : result unit * filesystem :=
  let '(ok, f') :=
    run_batch net (zip panos uas) zoom (Z.to_nat h_tiles) (Z.to_nat v_tiles)
      cropped out_path f in
  (if ok then Ok tt else Raise FetchError, f').

End TileFetcher.

(** ** The downloader object *)

(** The attributes set by [__init__]; [user_agent] holds the lines of
    [UserAgent.csv] as [_get_ua] loaded them, one entry per line. *)
Record StreetViewDownloader : Type := {
  dir_output : string;
  gsv_api_key : option string;
  path_pid : option string;
  image_style : list string;
  log_path : string;
  nthreads : Z;
  user_agent : list string
}.

(** The local variables of the batching loop of [download_gsv]. *)
Record locals : Type := Locals {
  task_pids : list string;
  errors : Z;
  img_num : Z
}.

Definition newline : string := String (ascii_of_nat 10) EmptyString.

Definition _read_pids (self : StreetViewDownloader) : M (list string) :=
  let* column0 := pd_read_csv_column0 (path_pid self) in
  ret (pd_unique column0).

Definition _check_already (self : StreetViewDownloader)
    (all_panoids : list string) : M (list string) :=
  let* names := os_listdir (dir_output self) in
  let name_r : gset string :=
    foldl (λ acc name, acc ∪ {[PyStr.split_0 "." name]}) ∅ names in
  ret (filter (λ pid, pid ∉ name_r) all_panoids).

Definition _log_write (self : StreetViewDownloader) (pids : list string) : M unit :=
  let* _ := open_append (log_path self) in
  for_each (λ pid _, write_append (log_path self) (pid +:+ newline)) pids tt.

(** [run] of [_transform_image]: one panorama file, one style. *)
Definition run (style path_input path_output : string) (show_size : Z) : M unit :=
  let* img_raw := cv2_imread path_input in
  if String.eqb style "fisheye" then
    cv2_imwrite path_output (Fisheye img_raw)
  else if String.eqb style "perspective" then
    let thetas := [0; 90; 180; 270] in
    let FOV := 90 in
    let aspects_v := (2.25%Q, 4%Q) in
    let aspects := (9, 16) in
    for_each (λ theta _,
      let height := PyStr.int_of_float (aspects_v.1 * inject_Z show_size) in
      let width := PyStr.int_of_float (aspects_v.2 * inject_Z show_size) in
      let aspect_name := PyStr.of_int aspects.1 +:+ "--" +:+ PyStr.of_int aspects.2 in
      let img := Perspective img_raw FOV theta 0 height width in
      let path_output_raw :=
        PyStr.replace ".png"
          ("_Direction_" +:+ PyStr.of_int theta +:+ "_FOV_" +:+ PyStr.of_int FOV
             +:+ "_aspect_" +:+ aspect_name +:+ "_raw.png")
          path_output in
      cv2_imwrite path_output_raw img) thetas tt
  else ret tt.

Definition process_image (dir_input dir_output name : string) (show_size : Z)
    : string * string * Z :=
  (os_path_join dir_input name,
   os_path_join dir_output (PyStr.replace "jpg" "png" name),
   show_size).

(** The pool of [_transform_image] runs one task per entry of the panorama
    directory; the tasks are taken here one after the other, in the order of
    the listing. *)
Definition _transform_image (self : StreetViewDownloader) (style : string)
    (show_size : Z) : M unit :=
  let dir_input := os_path_join (dir_output self) "panorama" in
  let dir_output := os_path_join (dir_output self) style in
  let* _ := os_makedirs dir_output in
  let* names := os_listdir dir_input in
  for_each (λ name _,
    let '(path_input, path_output, show_size) :=
      process_image dir_input dir_output name show_size in
    run style path_input path_output show_size) names tt.

(** [a % b] on Python integers. *)
Definition py_mod (a b : Z) : M Z :=
  if b =? 0 then raise ZeroDivisionError else ret (a mod b).

(** Lines 281 to 288 of [download_gsv]. *)
Definition projection_phase (self : StreetViewDownloader) : M unit :=
  if (0 <? length (image_style self))%nat then
    if negb (forallb (λ style, bool_decide (style ∈ ["perspective"; "fisheye"]))
               (image_style self))
    then raise (ValueError "Please input the correct image style. The correct image style should be 'perspective' or 'fisheye'.")
    else for_each (λ style _, _transform_image self style 100) (image_style self) tt
  else ret tt.

(** ** The batching loop *)

(** The type of [ImageTool.dwl_multiple]: its ten arguments and the file
    system it works on. *)
Definition downloader_tool : Type :=
  list string → list string → Z → Z → Z → Z → string → list string →
  bool → bool → filesystem → result unit * filesystem.

Section Downloader.

(** [ImageTool.dwl_multiple] belongs to [streetscope.download.utils.imtool].
    The scheduler only observes whether the call raises; what it does to the
    file system is left open. *)
Variable dwl_multiple : downloader_tool.

Definition tool_dwl_multiple (panos names : list string)
    (nthreads zoom v_tiles h_tiles : Z) (out_path : string)
    (uas : list string) (cropped full : bool) : M unit :=
  λ w,
    let '(r, f') :=
      dwl_multiple panos names nthreads zoom v_tiles h_tiles out_path uas
        cropped full (fs w) in
    (r, World f' (rng w)
          (calls w ++ [Call_dwl_multiple panos names nthreads zoom v_tiles
                         h_tiles out_path uas cropped full])).

(** The [else] branch of the loop, lines 267 to 279: one batch is handed to
    the tool.  The progress lines printed on the way are left out. *)
Definition dispatch (self : StreetViewDownloader) (zoom h_tiles v_tiles : Z)
    (cropped full : bool) (panorama_output : string) (st : locals) : M locals :=
  let* UAs := random_sample (user_agent self) (nthreads self) in
  let* st' :=
    try_except
      (let* _ := tool_dwl_multiple (task_pids st) (task_pids st) (nthreads self)
                   zoom v_tiles h_tiles panorama_output UAs cropped full in
       ret (Locals (task_pids st) (errors st) (img_num st + nthreads self)))
      (λ e,
        let* tenths := random_randint 1 5 in
        let* _ := time_sleep tenths in
        let st1 := Locals (task_pids st) (errors st + nthreads self) (img_num st) in
        let* _ := (if negb (String.eqb (log_path self) "")
                   then _log_write self (task_pids st) else ret tt) in
        ret st1) in
  ret (Locals [] (errors st') (img_num st')).

(** The body of [for i in range(len(panoids_rest))], lines 264 to 279. *)
Definition loop_body (self : StreetViewDownloader) (zoom h_tiles v_tiles : Z)
    (cropped full : bool) (panorama_output : string)
    (panoids_rest : list string) (i : nat) (st : locals) : M locals :=
  let* r := py_mod (Z.of_nat i) (nthreads self) in
  if negb (r =? 0) || (i =? 0)%nat then
    ret (Locals (task_pids st ++ [panoids_rest !!! i]) (errors st) (img_num st))
  else
    dispatch self zoom h_tiles v_tiles cropped full panorama_output st.

(** Lines 254 to 279 of [download_gsv]; the locals at the end of the loop are
    returned so that they can be observed. *)
Definition download_phase (self : StreetViewDownloader) (zoom h_tiles v_tiles : Z)
    (cropped full : bool) : M locals :=
  let panorama_output := os_path_join (dir_output self) "panorama" in
  let* _ := os_makedirs panorama_output in
  let* panoids := _read_pids self in
  let* panoids_rest := _check_already self panoids in
  for_each
    (loop_body self zoom h_tiles v_tiles cropped full panorama_output panoids_rest)
    (seq 0 (length panoids_rest)) (Locals [] 0 0).

Definition download_gsv (self : StreetViewDownloader) (zoom h_tiles v_tiles : Z)
    (cropped full : bool) : M locals :=
  let* st := download_phase self zoom h_tiles v_tiles cropped full in
  let* _ := projection_phase self in
  ret st.

(** The batches handed to the tool so far, oldest first. *)
Definition batch_of (e : event) : option (list string) :=
  match e with
  | Call_dwl_multiple panos _ _ _ _ _ _ _ _ _ => Some panos
  | Call_sleep _ => None
  end.

Definition dispatched (w : world) : list (list string) := omap batch_of (calls w).

End Downloader.

(** ** Methods beside [download_gsv] *)

(** The body of the loop of [_get_nthreads_pid], lines 107 to 111, on the
    pair [(all_pid, panos)]. *)
Definition nthreads_pid_body (self : StreetViewDownloader) (panoids : list string)
    (i : nat) (st : list (list string) * list string)
    : M (list (list string) * list string) :=
  let* r := py_mod (Z.of_nat i) (nthreads self) in
  if negb (r =? 0) || (i =? 0)%nat then ret (st.1, (st.2 ++ [panoids !!! i])%list)
  else ret ((st.1 ++ [st.2])%list, []).

Definition _get_nthreads_pid (self : StreetViewDownloader) (panoids : list string)
    : M (list (list string)) :=
  let* st := for_each (nthreads_pid_body self panoids)
               (seq 0 (length panoids)) ([], []) in
  ret st.1.

(** Lines 254 to 258 of [download_gsv]: the identifiers that the loop is
    going to walk through. *)
Definition pending (self : StreetViewDownloader) : M (list string) :=
  let* _ := os_makedirs (os_path_join (dir_output self) "panorama") in
  let* panoids := _read_pids self in
  _check_already self panoids.

(** [_get_ua]: one entry per line of the user agent file, the line without
    surrounding white space.  [user_agent_file] is the path that
    [pkg_resources.resource_filename] gives for [UserAgent.csv]; the text of
    the file is taken as reading in text mode delivers it, every line end
    being a newline.  An entry stands for the dictionary
    [{"user_agent": ...}] that holds it.  A path that names no file, or a
    directory, makes [open] raise; a file that is not plain text is outside
    what is modelled and counts with them. *)
Definition _get_ua (user_agent_file : string) : M (list string) :=
  λ w, match fs w !! user_agent_file with
       | Some (File (Text content)) =>
           (Ok (map PyStr.strip (PyStr.readlines content)), w)
       | _ => (Raise OSError, w)
       end.

(** A value of the JSON answer of the metadata service: a string, or
    anything else (number, boolean, null, array, object). *)
Inductive json : Type :=
| JString (s : string)
| JOther.

(** What [get_year_month] can raise: [KeyError] of its own, and whatever
    the request raises. *)
Inductive metadata_exn : Type :=
| KeyError (key : string)
| RequestError.

Section Metadata.

(** [requests.get(url).json()], for an answer that is a JSON object. *)
Variable requests_get_json : string → metadata_exn + gmap string json.

(** [get_year_month] of [_augment_metadata], lines 120 to 134. *)
Definition get_year_month (self : StreetViewDownloader) (pid : string)
    : metadata_exn + (option string * option string) :=
  let url :=
    "https://maps.googleapis.com/maps/api/streetview/metadata?pano=" +:+ pid
      +:+ "&key=" +:+ default "None" (gsv_api_key self) in
  match requests_get_json url with
  | inl e => inl e
  | inr response =>
      match response !! "status" with
      | None => inl (KeyError "status")
      | Some status =>
          if match status with JString s => String.eqb s "OK" | JOther => false end
          then
            inr match response !! "date" with
                | Some (JString date) =>
                    let year := PyStr.split "-" date !! 0%nat in
                    match PyStr.split "-" date !! 1%nat with
                    | Some month => (year, Some month)
                    | None => (None, None)
                    end
                | _ => (None, None)
                end
          else inr (None, None)
      end
  end.

End Metadata.

(** [standardize_column_names] of [_get_pids_from_csv], lines 160 to 171, on
    the column labels of the frame, which are all it touches. *)
Definition longitude_variants : list string := ["longitude"; "long"; "lon"; "lng"; "x"].
Definition latitude_variants : list string := ["latitude"; "lat"; "lt"; "y"].

(** [df.rename(columns={old: new}, inplace=True)] *)
Definition df_rename (old new : string) (columns : list string) : list string :=
  map (λ c, if String.eqb c old then new else c) columns.

Definition standardize_column_names (columns : list string) : list string :=
  let lowered := map PyStr.lower columns in
  foldl (λ cols col,
           if bool_decide (col ∈ longitude_variants) then df_rename col "longitude" cols
           else if bool_decide (col ∈ latitude_variants) then df_rename col "latitude" cols
           else cols)
    lowered lowered.

(** ** Sample inputs *)

Definition all_up : TileFetcher.network := λ _ _ _ _ _, true.
Definition all_down : TileFetcher.network := λ _ _ _ _ _, false.

Definition agents : list string := ["UA-1"; "UA-2"; "UA-3"].

Definition sv (styles : list string) (log : string) (n : Z) : StreetViewDownloader :=
  {| dir_output := "out"; gsv_api_key := None; path_pid := Some "pids.csv";
     image_style := styles; log_path := log; nthreads := n;
     user_agent := agents |}.

Definition disk (column0 : list string) : filesystem :=
  <["pids.csv" := File (Table column0)]> (<["out" := Dir]> ∅).

Definition world0 (column0 : list string) : world := World (disk column0) [] [].

Definition abcde : list string := ["a"; "b"; "c"; "d"; "e"].

(** A second run over an output directory that already holds the panorama
    of identifier [a]. *)
Definition disk_rerun : filesystem :=
  <["out/panorama/a.jpg" := File (Img (Canvas 1 1 [Tile "a" 2 0 0] false))]>
    (<["out/panorama" := Dir]> (disk ["a"; "b"; "c"])).

(** An output directory whose only panorama belongs to the identifier
    [xjpgy]. *)
Definition disk_xjpgy : filesystem :=
  <["out/panorama/xjpgy.jpg" := File (Img (Canvas 1 1 [Tile "xjpgy" 2 0 0] false))]>
    (<["out/panorama" := Dir]> (disk [])).

(** An answer of the metadata service for a capture of May 2019, and a
    service that gives this answer to every request. *)
Definition answer_2019_05 : gmap string json :=
  <["status" := JString "OK"]> (<["date" := JString "2019-05"]> ∅).

Definition api_2019_05 : string → metadata_exn + gmap string json :=
  λ _, inr answer_2019_05.

(** ** Notions used in the statements *)

(** The claim's words for the list read from the CSV: duplicates removed,
    first occurrences kept in their order. *)
Fixpoint first_occurrences (l : list string) : list string :=
  match l with
  | [] => []
  | x :: l' => x :: filter (λ y, y ≠ x) (first_occurrences l')
  end.

(** One identifier per line, each line newline-terminated. *)
Definition log_lines (pids : list string) : string :=
  foldr (λ pid rest, pid +:+ newline +:+ rest) "" pids.

(** The text that an append to the file at [path] comes after: the text of
    the file, empty for a file that does not exist yet and can be created;
    undefined for a path that cannot be opened for appending (a directory, a
    missing file in a missing directory, the empty path) or that names a file
    that is not plain text. *)
Definition text_at (f : filesystem) (path : string) : option string :=
  match f !! path with
  | None => if creatable f path then Some "" else None
  | Some (File (Text t)) => Some t
  | _ => None
  end.


(** What holds of every batch handed to the tool by downloader [self]: the
    user agents are as many as [nthreads] and are drawn from the pool without
    replacement. *)
Definition agents_ok (self : StreetViewDownloader) (e : event) : Prop :=
  match e with
  | Call_dwl_multiple _ _ _ _ _ _ _ uas _ _ =>
      Z.of_nat (length uas) = nthreads self
      ∧ uas ⊆+ user_agent self
      ∧ (NoDup (user_agent self) → NoDup uas)
  | Call_sleep _ => True
  end.

(** The number of identifiers in the batch in the making when iteration [i]
    of the loop starts, for a batch size [n]. *)
Definition fill (n : Z) (i : nat) : Z :=
  if Z.of_nat i <=? n then Z.of_nat i else (Z.of_nat i - 1) mod n.

(** The sizes of the batches of a run with batch size [n]: the first batch
    is full, every later one is one short. *)
Definition batch_shape (n : Z) (batches : list (list string)) : Prop :=
  match batches with
  | [] => True
  | first :: later =>
      Z.of_nat (length first) = n
      ∧ Forall (λ b, Z.of_nat (length b) = n - 1) later
  end.

(** The indices whose identifier the batching loops keep: every index but
    the positive multiples of the batch size [n]. *)
Definition kept_indices (n : Z) (m : nat) : list nat :=
  filter (λ i, i = 0%nat ∨ Z.of_nat i `mod` n ≠ 0) (seq 0 m).

(** The number of failed batches of a run: each one is followed by a sleep. *)
Definition is_sleep (e : event) : bool :=
  match e with
  | Call_sleep _ => true
  | Call_dwl_multiple _ _ _ _ _ _ _ _ _ _ => false
  end.

Definition sleeps (w : world) : nat := length (filter is_sleep (calls w)).

(** The label a column ends up with, given its lower-case label. *)
Definition canonical_name (c : string) : string :=
  if bool_decide (c ∈ longitude_variants) then "longitude"
  else if bool_decide (c ∈ latitude_variants) then "latitude"
  else c.

(** Every character of [s] satisfies [P]. *)
Fixpoint all_chars (P : ascii → bool) (s : string) : bool :=
  match s with
  | EmptyString => true
  | String c s' => P c && all_chars P s'
  end.

Definition not_newline (c : ascii) : bool := negb (Ascii.eqb c (ascii_of_nat 10)).
Definition not_dash (c : ascii) : bool := negb (Ascii.eqb c "-").

(** The text of [lines] put end to end. *)
Definition joined (lines : list string) : string :=
  foldr (λ l rest, l +:+ rest) "" lines.

(** The text whose lines are [bodies], each followed by a newline, and then
    [last], which has no newline after it. *)
Definition text_of_lines (bodies : list string) (last : string) : string :=
  joined (map (λ body, body +:+ newline) bodies) +:+ last.

(** A computation that makes no external call. *)
Definition keeps_calls {A} (m : M A) : Prop := ∀ w, calls (m w).2 = calls w.

(** * Properties *)

(** ** Strings and paths *)

Example replace_jpg : PyStr.replace "jpg" "png" "abc.jpg" = "abc.png".
Proof. reflexivity. Qed.

Example replace_no_overlap : PyStr.replace "aa" "b" "aaa" = "ba".
Proof. reflexivity. Qed.

Example split_0_two_dots : PyStr.split_0 "." "a.b.jpg" = "a".
Proof. reflexivity. Qed.

Example join_plain : os_path_join "out" "panorama" = "out/panorama".
Proof. reflexivity. Qed.

Example join_trailing : os_path_join "out/" "panorama" = "out/panorama".
Proof. reflexivity. Qed.

Example int_of_float_225 : PyStr.int_of_float (2.25 * inject_Z 100)%Q = 225.
Proof. reflexivity. Qed.

(** ** The monad *)

Lemma bind_ok {A B} (m : M A) (k : A → M B) w a w' :
  m w = (Ok a, w') → bind m k w = k a w'.
Proof. intros H. unfold bind. by rewrite H. Qed.

Lemma bind_raise {A B} (m : M A) (k : A → M B) w e w' :
  m w = (Raise e, w') → bind m k w = (Raise e, w').
Proof. intros H. unfold bind. by rewrite H. Qed.

Lemma bind_ext {A B} (m : M A) (k1 k2 : A → M B) w :
  (∀ a w', k1 a w' = k2 a w') → bind m k1 w = bind m k2 w.
Proof. intros H. unfold bind. by destruct (m w) as [[a|e] w']. Qed.

Lemma keeps_calls_ret {A} (a : A) : keeps_calls (ret a).
Proof. by intros w. Qed.

Lemma keeps_calls_raise {A} e : keeps_calls (@raise A e).
Proof. by intros w. Qed.

Lemma keeps_calls_bind {A B} (m : M A) (k : A → M B) :
  keeps_calls m → (∀ a, keeps_calls (k a)) → keeps_calls (bind m k).
Proof.
  intros Hm Hk w. unfold bind. specialize (Hm w).
  destruct (m w) as [[a|e] w1]; simpl in *; [|done].
  by rewrite Hk.
Qed.

Lemma keeps_calls_for_each {A St} (body : A → St → M St) (l : list A) :
  (∀ x st, keeps_calls (body x st)) → ∀ st, keeps_calls (for_each body l st).
Proof.
  intros Hbody. induction l as [|x l IH]; intros st; simpl.
  - apply keeps_calls_ret.
  - by apply keeps_calls_bind.
Qed.

(** A loop invariant [I], indexed by the number of iterations done, holds at
    the end of a loop that ends normally; [J] holds of the world in which a
    loop is left by an exception. *)
Lemma for_each_rule {A St} (body : A → St → M St)
    (I : nat → St → world → Prop) (J : world → Prop) (l : list A) :
  ∀ k st w,
    (∀ j x st w, l !! j = Some x → I (k + j)%nat st w →
       match body x st w with
       | (Ok st', w') => I (S (k + j)) st' w'
       | (Raise _, w') => J w'
       end) →
    I k st w →
    match for_each body l st w with
    | (Ok st', w') => I (k + length l)%nat st' w'
    | (Raise _, w') => J w'
    end.
Proof.
  induction l as [|x l IH]; intros k st w Hbody HI; simpl.
  - by rewrite Nat.add_0_r.
  - pose proof (Hbody 0%nat x st w eq_refl) as H0.
    rewrite Nat.add_0_r in H0. specialize (H0 HI).
    unfold bind. destruct (body x st w) as [[st1|e] w1]; [|done].
    replace (k + S (length l))%nat with (S k + length l)%nat by lia.
    apply IH; [|done].
    intros j y st2 w2 Hj. replace (S k + j)%nat with (k + S j)%nat by lia.
    by apply Hbody.
Qed.

Lemma for_each_ext {A St} (body1 body2 : A → St → M St) (l : list A) st w :
  (∀ x st w, x ∈ l → body1 x st w = body2 x st w) →
  for_each body1 l st w = for_each body2 l st w.
Proof.
  revert st w. induction l as [|x l IH]; intros st w H; [done|]. simpl.
  unfold bind. rewrite H; [|by left].
  destruct (body2 x st w) as [[st1|e] w1]; [|done].
  apply IH. intros. apply H. by right.
Qed.

(** ** Sampling without replacement *)

Lemma sample_go_spec {A} (k : nat) : ∀ (pool : list A) w,
  ∃ uas w', sample_go k pool w = (Ok uas, w')
    ∧ fs w' = fs w ∧ calls w' = calls w
    ∧ uas ⊆+ pool
    ∧ ((k ≤ length pool)%nat → length uas = k).
Proof.
  induction k as [|k IH]; intros pool w; simpl.
  - exists [], w. split_and!; [done..|apply submseteq_nil_l|done].
  - unfold bind, next_raw. simpl.
    set (w1 := World (fs w) (tl (rng w)) (calls w)).
    destruct (pool !! (hd 0%nat (rng w) mod length pool)%nat) as [x|] eqn:Hx.
    + destruct (IH (delete (hd 0%nat (rng w) mod length pool)%nat pool) w1)
        as (rest & w2 & Hgo & Hfs & Hcalls & Hsub & Hlen).
      rewrite Hgo. exists (x :: rest), w2. split_and!; [done..| |].
      * rewrite (delete_Permutation pool _ x Hx). by apply submseteq_skip.
      * intros Hk. simpl. f_equal. apply Hlen.
        rewrite length_delete; [lia | by eexists].
    + exists [], w1. split_and!; [done..|apply submseteq_nil_l|].
      intros Hk. apply lookup_ge_None in Hx.
      assert (length pool ≠ 0)%nat as Hpos by lia.
      pose proof (Nat.mod_upper_bound (hd 0%nat (rng w)) (length pool) Hpos). lia.
Qed.

(** [random.sample] either raises, leaving the world as it is, or returns
    [k] entries taken from different places of the population. *)
Lemma random_sample_spec {A} (population : list A) (k : Z) w :
  (random_sample population k w
     = (Raise (ValueError "Sample larger than population or is negative"), w)
   ∧ (k < 0 ∨ Z.of_nat (length population) < k))
  ∨ (∃ uas w', random_sample population k w = (Ok uas, w')
       ∧ fs w' = fs w ∧ calls w' = calls w
       ∧ uas ⊆+ population ∧ Z.of_nat (length uas) = k).
Proof.
  unfold random_sample.
  destruct ((k <? 0) || (Z.of_nat (length population) <? k)) eqn:Hk.
  - left. split; [done|]. apply orb_true_iff in Hk. lia.
  - right. apply orb_false_iff in Hk.
    destruct (sample_go_spec (Z.to_nat k) population w)
      as (uas & w' & Hgo & Hfs & Hcalls & Hsub & Hlen).
    exists uas, w'. split_and!; [done..|]. rewrite Hlen; lia.
Qed.

Lemma submseteq_NoDup_l {A} (l k : list A) : l ⊆+ k → NoDup k → NoDup l.
Proof.
  intros (k' & Hsub & Hperm)%submseteq_sublist_l Hk.
  apply (sublist_NoDup l k'); [by rewrite Hperm | done].
Qed.

(** ** The failure log *)

Lemma append_cons c (s1 s2 : string) : String c s1 +:+ s2 = String c (s1 +:+ s2).
Proof. reflexivity. Qed.

Lemma append_assoc (s1 s2 s3 : string) : (s1 +:+ s2) +:+ s3 = s1 +:+ (s2 +:+ s3).
Proof. induction s1 as [|c s1 IH]; [done|]. by rewrite !append_cons, IH. Qed.

Lemma append_empty_r (s : string) : s +:+ "" = s.
Proof. induction s as [|c s IH]; [done|]. by rewrite append_cons, IH. Qed.

(** Writing the lines of a batch one by one to a text file amounts to one
    append of [log_lines]. *)
Lemma write_lines path (pids : list string) : ∀ w t,
  fs w !! path = Some (File (Text t)) →
  for_each (λ pid _, write_append path (pid +:+ newline)) pids tt w
  = (Ok tt, set_fs (insert path (File (Text (t +:+ log_lines pids)))) w).
Proof.
  induction pids as [|pid pids IH]; intros w t Ht; simpl.
  - unfold ret, set_fs. rewrite append_empty_r, insert_id by done. by destruct w.
  - unfold bind, write_append at 1. rewrite Ht. simpl.
    rewrite (IH _ (t +:+ (pid +:+ newline))); [|simpl; by rewrite lookup_insert_eq].
    unfold set_fs. simpl. rewrite insert_insert_eq.
    by rewrite !append_assoc.
Qed.

Lemma log_write_text self pids w t :
  text_at (fs w) (log_path self) = Some t →
  _log_write self pids w
  = (Ok tt, set_fs (insert (log_path self) (File (Text (t +:+ log_lines pids)))) w).
Proof.
  unfold text_at, _log_write, bind, open_append. intros Ht.
  destruct (fs w !! log_path self) as [[|[]]|] eqn:Hlog; simplify_eq.
  - by apply write_lines.
  - destruct (creatable (fs w) (log_path self)); simplify_eq.
    rewrite (write_lines _ _ _ ""); [|simpl; by rewrite lookup_insert_eq].
    unfold set_fs. simpl. by rewrite insert_insert_eq.
Qed.

Lemma write_append_calls path s w : calls (write_append path s w).2 = calls w.
Proof. unfold write_append. by destruct (fs w !! path) as [[]|]. Qed.

Lemma log_write_calls self pids w : calls (_log_write self pids w).2 = calls w.
Proof.
  unfold _log_write, bind, open_append.
  assert (∀ w, calls (for_each (λ pid _, write_append (log_path self) (pid +:+ newline))
                        pids tt w).2 = calls w) as Hloop.
  { induction pids as [|pid pids IH]; intros w0; simpl; [done|].
    unfold bind. pose proof (write_append_calls (log_path self) (pid +:+ newline) w0) as Hw.
    destruct (write_append _ _ w0) as [[[]|e] w1]; simpl in *; [|done].
    by rewrite IH. }
  destruct (fs w !! log_path self) as [[]|]; simpl; [done|by rewrite Hloop|].
  destruct (creatable (fs w) (log_path self)); simpl; [by rewrite Hloop|done].
Qed.

(** ** Calls made by the methods that do not reach the tool *)

Lemma keeps_calls_listdir d : keeps_calls (os_listdir d).
Proof. intros w. unfold os_listdir. by destruct (os_path_isdir (fs w) d). Qed.

Lemma keeps_calls_makedirs p : keeps_calls (os_makedirs p).
Proof.
  unfold os_makedirs. destruct (String.eqb p ""); [apply keeps_calls_raise|].
  destruct (String.eqb (PyStr.rstrip_slash p) ""); [apply keeps_calls_ret|].
  apply keeps_calls_for_each. intros d [] w. unfold mkdir_missing.
  by destruct (fs w !! d) as [[]|].
Qed.

(** [os.makedirs] only adds directories: what is recorded stays as it is. *)
Lemma makedirs_keeps_files p w :
  ∀ q x, fs w !! q = Some x → fs (os_makedirs p w).2 !! q = Some x.
Proof.
  unfold os_makedirs. destruct (String.eqb p ""); [done|].
  destruct (String.eqb (PyStr.rstrip_slash p) ""); [done|].
  generalize (heads "" (PyStr.rstrip_slash p) ++ [PyStr.rstrip_slash p])%list.
  intros ds. revert w. induction ds as [|d ds IH]; intros w q x Hq; [done|].
  simpl. unfold bind, mkdir_missing at 1.
  destruct (fs w !! d) as [[|?]|] eqn:Hd; simpl; [by apply IH|done|].
  apply IH. simpl. rewrite lookup_insert_ne; [done|]. intros ->. congruence.
Qed.

Lemma keeps_calls_imread p : keeps_calls (cv2_imread p).
Proof. by intros w. Qed.

Lemma keeps_calls_imwrite p i : keeps_calls (cv2_imwrite p i).
Proof. by intros w. Qed.

Lemma keeps_calls_read_pids self : keeps_calls (_read_pids self).
Proof.
  apply keeps_calls_bind; [|intros; apply keeps_calls_ret].
  intros w. unfold pd_read_csv_column0.
  destruct (path_pid self) as [p|]; [|done].
  by destruct (fs w !! p) as [[|[]]|].
Qed.

Lemma keeps_calls_check_already self l : keeps_calls (_check_already self l).
Proof.
  apply keeps_calls_bind; [apply keeps_calls_listdir|intros; apply keeps_calls_ret].
Qed.

Lemma keeps_calls_run style path_input path_output show_size :
  keeps_calls (run style path_input path_output show_size).
Proof.
  apply keeps_calls_bind; [apply keeps_calls_imread|]. intros img.
  destruct (String.eqb style "fisheye"); [apply keeps_calls_imwrite|].
  destruct (String.eqb style "perspective"); [|apply keeps_calls_ret].
  apply keeps_calls_for_each. intros. apply keeps_calls_imwrite.
Qed.

Lemma keeps_calls_transform_image self style show_size :
  keeps_calls (_transform_image self style show_size).
Proof.
  apply keeps_calls_bind; [apply keeps_calls_makedirs|]. intros _.
  apply keeps_calls_bind; [apply keeps_calls_listdir|]. intros names.
  apply keeps_calls_for_each. intros. apply keeps_calls_run.
Qed.

Lemma keeps_calls_projection_phase self : keeps_calls (projection_phase self).
Proof.
  unfold projection_phase.
  destruct (0 <? length (image_style self))%nat; [|apply keeps_calls_ret].
  destruct (negb _); [apply keeps_calls_raise|].
  apply keeps_calls_for_each. intros. apply keeps_calls_transform_image.
Qed.

(** ** One batch *)

Section Scheduler.

Variable dwl_multiple : downloader_tool.
Variable self : StreetViewDownloader.
Variables zoom h_tiles v_tiles : Z.
Variables cropped full : bool.
Variable panorama_output : string.

#[local] Abbreviation n := (nthreads self).

(** What [dispatch] does, case by case: the sampling raises and nothing
    else happens; or the tool is called once, with the current batch, and the
    counters move by [nthreads]. *)
Lemma dispatch_cases st w :
  (dispatch dwl_multiple self zoom h_tiles v_tiles cropped full panorama_output st w
     = (Raise (ValueError "Sample larger than population or is negative"), w)
   ∧ (n < 0 ∨ Z.of_nat (length (user_agent self)) < n))
  ∨ ∃ uas ws r f1,
      random_sample (user_agent self) n w = (Ok uas, ws)
      ∧ fs ws = fs w ∧ calls ws = calls w
      ∧ uas ⊆+ user_agent self ∧ Z.of_nat (length uas) = n
      ∧ dwl_multiple (task_pids st) (task_pids st) n zoom v_tiles h_tiles
          panorama_output uas cropped full (fs w) = (r, f1)
      ∧ let ev := Call_dwl_multiple (task_pids st) (task_pids st) n zoom v_tiles
                    h_tiles panorama_output uas cropped full in
        match r with
        | Ok _ =>
            dispatch dwl_multiple self zoom h_tiles v_tiles cropped full
              panorama_output st w
            = (Ok (Locals [] (errors st) (img_num st + n)),
               World f1 (rng ws) (calls w ++ [ev]))
        | Raise _ =>
            ∃ tenths,
              let w2 := World f1 (tl (rng ws)) (calls w ++ [ev; Call_sleep tenths]) in
              dispatch dwl_multiple self zoom h_tiles v_tiles cropped full
                panorama_output st w
              = if String.eqb (log_path self) ""
                then (Ok (Locals [] (errors st + n) (img_num st)), w2)
                else match _log_write self (task_pids st) w2 with
                     | (Ok _, w3) => (Ok (Locals [] (errors st + n) (img_num st)), w3)
                     | (Raise e, w3) => (Raise e, w3)
                     end
        end.
Proof.
  unfold dispatch.
  destruct (random_sample_spec (user_agent self) n w)
    as [[Hs Hn]|(uas & ws & Hs & Hfs & Hcalls & Hsub & Hlen)].
  - left. split; [|done]. by rewrite (bind_raise _ _ _ _ _ Hs).
  - right.
    destruct (dwl_multiple (task_pids st) (task_pids st) n zoom v_tiles h_tiles
                panorama_output uas cropped full (fs w)) as [r f1] eqn:Hd.
    exists uas, ws, r, f1. split_and!; [done..|].
    rewrite (bind_ok _ _ _ _ _ Hs).
    unfold bind, try_except, tool_dwl_multiple. rewrite Hfs, Hcalls, Hd.
    destruct r as [[]|e]; simpl; [done|].
    exists (1 + Z.of_nat (hd 0%nat (rng ws)) mod (5 - 1 + 1)).
    unfold log_call. simpl. rewrite <- app_assoc. simpl.
    destruct (String.eqb (log_path self) ""); simpl; [done|].
    by destruct (_log_write self (task_pids st) _) as [[[]|e'] w3].
Qed.

(** ** The loop *)

Variable panoids_rest : list string.

#[local] Abbreviation body :=
  (loop_body dwl_multiple self zoom h_tiles v_tiles cropped full
     panorama_output panoids_rest).

(** A flush either fails in the sampling, before the tool is reached, or
    hands exactly the current batch to the tool and starts an empty one. *)
Lemma dispatch_step st w :
  match dispatch dwl_multiple self zoom h_tiles v_tiles cropped full
          panorama_output st w with
  | (r, w') =>
      (Forall (agents_ok self) (calls w) → Forall (agents_ok self) (calls w'))
      ∧ ((dispatched w' = dispatched w ∧ ∃ e, r = Raise e)
         ∨ (dispatched w' = (dispatched w ++ [task_pids st])%list
            ∧ match r with
              | Ok st' => task_pids st' = []
              | Raise _ => True
              end))
  end.
Proof.
  destruct (dispatch_cases st w)
    as [[-> _]|(uas & ws & r & f1 & Hs & Hfs & Hcalls & Hsub & Hlen & Hd & Hr)];
    [split; [done|left; by eauto]|].
  cbv zeta in Hr.
  set (ev := Call_dwl_multiple _ _ _ _ _ _ _ uas _ _) in Hr.
  assert (agents_ok self ev) as Hev.
  { split_and!; [done..|]. by apply submseteq_NoDup_l. }
  destruct r as [[]|e].
  - rewrite Hr. simpl. split.
    + intros HF. apply Forall_app. split; [done|]. by apply Forall_singleton.
    + right. unfold dispatched. simpl. by rewrite omap_app.
  - destruct Hr as (tenths & ->).
    set (w2 := World _ _ _).
    assert (Forall (agents_ok self) (calls w) → Forall (agents_ok self) (calls w2)) as HF2.
    { intros HF. apply Forall_app. split; [done|].
      apply Forall_cons_2; [done|]. by apply Forall_singleton. }
    assert (dispatched w2 = (dispatched w ++ [task_pids st])%list) as HD2.
    { unfold dispatched. simpl. by rewrite omap_app. }
    destruct (String.eqb (log_path self) ""); [by split; [|right]|].
    pose proof (log_write_calls self (task_pids st) w2) as Hlw.
    destruct (_log_write self (task_pids st) w2) as [[[]|e'] w3]; simpl in Hlw.
    + split; [by rewrite Hlw|]. right. unfold dispatched. by rewrite Hlw.
    + split; [by rewrite Hlw|]. right. unfold dispatched. by rewrite Hlw.
Qed.

(** Which branch an iteration takes. *)
Lemma loop_body_append i st w :
  n ≠ 0 → Z.of_nat i `mod` n ≠ 0 ∨ i = 0%nat →
  body i st w
  = (Ok (Locals (task_pids st ++ [panoids_rest !!! i]) (errors st) (img_num st)), w).
Proof.
  intros Hn Hi. unfold loop_body, py_mod.
  rewrite (proj2 (Z.eqb_neq n 0) Hn).
  rewrite (bind_ok _ _ _ (Z.of_nat i `mod` n) w) by done.
  destruct Hi as [Hi| ->].
  - by rewrite (proj2 (Z.eqb_neq _ 0) Hi).
  - by rewrite orb_true_r.
Qed.

Lemma loop_body_flush i st w :
  n ≠ 0 → Z.of_nat i `mod` n = 0 → i ≠ 0%nat →
  body i st w
  = dispatch dwl_multiple self zoom h_tiles v_tiles cropped full panorama_output st w.
Proof.
  intros Hn Hi Hi0. unfold loop_body, py_mod.
  rewrite (proj2 (Z.eqb_neq n 0) Hn).
  rewrite (bind_ok _ _ _ (Z.of_nat i `mod` n) w) by done.
  rewrite Hi. simpl. by rewrite (proj2 (Nat.eqb_neq i 0) Hi0).
Qed.

(** One iteration either extends the current batch by the identifier at
    hand, or hands the current batch to the tool and starts an empty one,
    or is left by an exception. *)
Lemma loop_body_step i st w :
  match body i st w with
  | (r, w') =>
      (Forall (agents_ok self) (calls w) → Forall (agents_ok self) (calls w'))
      ∧ ((dispatched w' = dispatched w
          ∧ match r with
            | Ok st' => task_pids st' = (task_pids st ++ [panoids_rest !!! i])%list
            | Raise _ => True
            end)
         ∨ (dispatched w' = (dispatched w ++ [task_pids st])%list
            ∧ match r with
              | Ok st' => task_pids st' = []
              | Raise _ => True
              end))
  end.
Proof.
  destruct (decide (n = 0)) as [Hn0|Hn].
  { unfold loop_body, py_mod. rewrite Hn0. by split; [|left]. }
  destruct (decide (Z.of_nat i `mod` n ≠ 0 ∨ i = 0%nat)) as [Hi|Hi].
  { rewrite loop_body_append by done. by split; [|left]. }
  assert (Z.of_nat i `mod` n = 0 ∧ i ≠ 0%nat) as [Hm Hi0].
  { split; [|intros ->; apply Hi; by right].
    destruct (decide (Z.of_nat i `mod` n = 0)); [done|]. exfalso. apply Hi. by left. }
  rewrite loop_body_flush by done.
  pose proof (dispatch_step st w) as Hstep.
  destruct (dispatch _ _ _ _ _ _ _ _ st w) as [r w'].
  destruct Hstep as [HF [[HD [e ->]]|HD]]; split; [done|by left|done|by right].
Qed.

(** The calls of a whole loop satisfy [agents_ok], however the loop ends. *)
Lemma loop_agents st w :
  Forall (agents_ok self) (calls w) →
  Forall (agents_ok self)
    (calls (for_each body (seq 0 (length panoids_rest)) st w).2).
Proof.
  intros HF.
  pose proof (for_each_rule body
    (λ _ _ w, Forall (agents_ok self) (calls w))
    (λ w, Forall (agents_ok self) (calls w))
    (seq 0 (length panoids_rest)) 0%nat st w) as Hrule.
  destruct (for_each body _ st w) as [[st'|e] w']; simpl; apply Hrule; try done.
  all: intros j i st1 w1 _ HF1; pose proof (loop_body_step i st1 w1) as Hstep;
    destruct (body i st1 w1) as [[st2|e2] w2]; by apply Hstep.
Qed.

(** The identifiers handed to the tool, in the order of the calls and
    followed by the batch in the making, are taken from the list in order:
    no identifier is handed over twice, none is invented. *)
Lemma loop_sublist st w :
  dispatched w = [] → task_pids st = [] →
  concat (dispatched (for_each body (seq 0 (length panoids_rest)) st w).2)
    `sublist_of` panoids_rest.
Proof.
  intros HD Ht.
  pose proof (for_each_rule body
    (λ i st w, (concat (dispatched w) ++ task_pids st)%list `sublist_of` take i panoids_rest)
    (λ w, concat (dispatched w) `sublist_of` panoids_rest)
    (seq 0 (length panoids_rest)) 0%nat st w) as Hrule.
  simpl in Hrule. rewrite length_seq in Hrule.
  assert (∀ (j i : nat) st1 w1,
    seq 0 (length panoids_rest) !! j = Some i →
    (concat (dispatched w1) ++ task_pids st1)%list `sublist_of` take j panoids_rest →
    match body i st1 w1 with
    | (Ok st', w') =>
        (concat (dispatched w') ++ task_pids st')%list `sublist_of` take (S j) panoids_rest
    | (Raise _, w') => concat (dispatched w') `sublist_of` panoids_rest
    end) as Hbody.
  { intros j i st1 w1 [Hi Hj]%lookup_seq HI. simpl in Hi. subst i.
    assert (take (S j) panoids_rest = take j panoids_rest ++ [panoids_rest !!! j])%list
      as HS by by apply take_S_r, list_lookup_lookup_total_lt.
    pose proof (loop_body_step j st1 w1) as Hstep.
    destruct (body j st1 w1) as [[st2|e2] w2];
      destruct Hstep as [_ [[-> Hst]|[-> Hst]]].
    - rewrite Hst, HS, app_assoc. by apply sublist_app.
    - rewrite Hst, concat_app. simpl. rewrite !app_nil_r, HS.
      by apply sublist_inserts_r.
    - etrans; [|apply (sublist_take _ j)].
      etrans; [|exact HI]. by apply sublist_inserts_r.
    - rewrite concat_app. simpl. rewrite app_nil_r.
      etrans; [exact HI|]. apply sublist_take. }
  specialize (Hrule Hbody). rewrite HD, Ht in Hrule. specialize (Hrule (sublist_nil_l _)).
  destruct (for_each body _ st w) as [[st'|e] w']; simpl; [|done].
  rewrite firstn_all in Hrule.
  etrans; [|exact Hrule]. by apply sublist_inserts_r.
Qed.

Lemma fill_append i :
  0 < n → Z.of_nat i `mod` n ≠ 0 ∨ i = 0%nat → fill n (S i) = fill n i + 1.
Proof.
  intros Hn Hi. unfold fill. rewrite Nat2Z.inj_succ.
  pose proof (Z.mod_pos_bound (Z.of_nat i) n Hn) as Hr.
  pose proof (Z.div_mod (Z.of_nat i) n ltac:(lia)) as Hq.
  destruct Hi as [Hi| ->];
    [|change (Z.succ (Z.of_nat 0)) with 1; change (Z.of_nat 0) with 0;
      destruct (Z.leb_spec 1 n), (Z.leb_spec 0 n); lia].
  destruct (Z.leb_spec (Z.succ (Z.of_nat i)) n), (Z.leb_spec (Z.of_nat i) n); try lia.
  - assert (Z.of_nat i = n) as Heq by lia. rewrite Heq, Z_mod_same_full in Hi. done.
  - replace (Z.succ (Z.of_nat i) - 1) with (Z.of_nat i) by lia.
    rewrite <- (Z.mod_unique (Z.of_nat i - 1) n (Z.of_nat i / n) (Z.of_nat i `mod` n - 1));
      lia.
Qed.

Lemma fill_flush i :
  0 < n → Z.of_nat i `mod` n = 0 → i ≠ 0%nat →
  n ≤ Z.of_nat i
  ∧ fill n (S i) = 0
  ∧ (Z.of_nat i ≤ n → fill n i = n)
  ∧ (n < Z.of_nat i → fill n i = n - 1).
Proof.
  intros Hn Hi Hi0.
  assert (n ≤ Z.of_nat i) as Hge.
  { destruct (Z.le_gt_cases n (Z.of_nat i)); [done|].
    rewrite Z.mod_small in Hi; lia. }
  pose proof (Z.div_mod (Z.of_nat i) n ltac:(lia)) as Hq. rewrite Hi in Hq.
  unfold fill. rewrite Nat2Z.inj_succ. split_and!; [done| | |].
  - destruct (Z.leb_spec (Z.succ (Z.of_nat i)) n); [lia|].
    by replace (Z.succ (Z.of_nat i) - 1) with (Z.of_nat i) by lia.
  - intros Hle. destruct (Z.leb_spec (Z.of_nat i) n); lia.
  - intros Hlt. destruct (Z.leb_spec (Z.of_nat i) n); [lia|].
    symmetry. apply (Z.mod_unique _ n (Z.of_nat i / n - 1)); lia.
Qed.

(** The first batch of a loop is full and every later one is one identifier
    short, however the loop ends. *)
Lemma loop_shape st w :
  0 < n → dispatched w = [] → task_pids st = [] →
  batch_shape n (dispatched (for_each body (seq 0 (length panoids_rest)) st w).2).
Proof.
  intros Hn HD Ht.
  pose proof (for_each_rule body
    (λ i st w, Z.of_nat (length (task_pids st)) = fill n i
               ∧ batch_shape n (dispatched w)
               ∧ (Z.of_nat i ≤ n ↔ dispatched w = []))
    (λ w, batch_shape n (dispatched w))
    (seq 0 (length panoids_rest)) 0%nat st w) as Hrule.
  simpl in Hrule.
  assert (∀ (j i : nat) st1 w1,
    seq 0 (length panoids_rest) !! j = Some i →
    Z.of_nat (length (task_pids st1)) = fill n j
    ∧ batch_shape n (dispatched w1)
    ∧ (Z.of_nat j ≤ n ↔ dispatched w1 = []) →
    match body i st1 w1 with
    | (Ok st', w') =>
        Z.of_nat (length (task_pids st')) = fill n (S j)
        ∧ batch_shape n (dispatched w')
        ∧ (Z.of_nat (S j) ≤ n ↔ dispatched w' = [])
    | (Raise _, w') => batch_shape n (dispatched w')
    end) as Hbody.
  { intros j i st1 w1 [Hi Hj]%lookup_seq (Hlen & Hshape & Hfirst).
    simpl in Hi. subst i.
    destruct (decide (Z.of_nat j `mod` n ≠ 0 ∨ j = 0%nat)) as [Hbr|Hbr].
    - rewrite loop_body_append by (done || lia). simpl.
      rewrite length_app, Nat2Z.inj_add, Hlen, fill_append by done.
      split_and!; [simpl; lia|done|]. rewrite <- Hfirst, Nat2Z.inj_succ.
      split; [lia|]. intros Hle.
      destruct (decide (Z.of_nat j = n)) as [Heq|]; [|lia].
      destruct Hbr as [Hbr| ->]; [|simpl in Heq; lia].
      rewrite Heq, Z_mod_same_full in Hbr. done.
    - assert (Z.of_nat j `mod` n = 0 ∧ j ≠ 0%nat) as [Hm Hj0].
      { split; [|intros ->; apply Hbr; by right].
        destruct (decide (Z.of_nat j `mod` n = 0)); [done|].
        exfalso. apply Hbr. by left. }
      rewrite loop_body_flush by (done || lia).
      destruct (fill_flush j Hn Hm Hj0) as (Hge & Hnext & Hfull & Hshort).
      pose proof (dispatch_step st1 w1) as Hstep.
      destruct (dispatch _ _ _ _ _ _ _ _ st1 w1) as [r w'].
      destruct Hstep as [_ [[HD' [e ->]]|[HD' Hr]]]; [by rewrite HD'|].
      assert (batch_shape n (dispatched w')) as Hshape'.
      { rewrite HD'. destruct (dispatched w1) as [|first later] eqn:Hd1; simpl.
        - split; [|constructor]. rewrite Hlen. apply Hfull. by apply Hfirst.
        - destruct Hshape as [Hf Hl]. split; [done|].
          apply Forall_app. split; [done|]. apply Forall_singleton.
          rewrite Hlen. apply Hshort.
          destruct (Z.le_gt_cases (Z.of_nat j) n) as [Hle|]; [|lia].
          by apply Hfirst in Hle. }
      destruct r as [st'|e]; [|done].
      rewrite Hr. split_and!; [by rewrite Hnext|done|].
      rewrite HD', Nat2Z.inj_succ. split; [lia|].
      intros Happ. by apply app_eq_nil in Happ as [_ ?]. }
  specialize (Hrule Hbody). rewrite HD, Ht in Hrule.
  assert (Z.of_nat (length (@nil string)) = fill n 0
          ∧ batch_shape n [] ∧ (Z.of_nat 0 ≤ n ↔ @nil (list string) = [])) as Hinit.
  { unfold fill. change (Z.of_nat 0) with 0. simpl.
    destruct (Z.leb_spec 0 n); [|lia].
    split; [done|]. split; [done|]. split; [done|lia]. }
  specialize (Hrule Hinit).
  destruct (for_each body _ st w) as [[st'|e] w']; simpl; [|done].
  by destruct Hrule as (_ & ? & _).
Qed.

End Scheduler.

(** ** Reading the identifiers *)

Lemma unique_go_filter (l : list string) : ∀ seen : gset string,
  unique_go seen l = filter (λ y, y ∉ seen) (first_occurrences l).
Proof.
  induction l as [|x l IH]; intros seen; simpl; [done|].
  destruct (decide (x ∈ seen)) as [Hin|Hout].
  - rewrite filter_cons_False by (by intros H; apply H).
    rewrite IH, list_filter_filter. apply list_filter_iff. intros y.
    split; [intros Hy; split; [done|by intros ->]|by intros [Hy _]].
  - rewrite filter_cons_True by done. f_equal.
    rewrite IH, list_filter_filter. apply list_filter_iff. intros y.
    rewrite not_elem_of_union, not_elem_of_singleton. tauto.
Qed.

Lemma pd_unique_first_occurrences (l : list string) :
  pd_unique l = first_occurrences l.
Proof.
  unfold pd_unique. rewrite unique_go_filter.
  induction (first_occurrences l) as [|x k IH]; [done|].
  rewrite filter_cons_True by apply not_elem_of_empty. by f_equal.
Qed.

Lemma first_occurrences_elem_of (l : list string) x :
  x ∈ first_occurrences l ↔ x ∈ l.
Proof.
  induction l as [|y l IH]; simpl; [done|].
  rewrite !elem_of_cons, list_elem_of_filter, IH.
  destruct (decide (x = y)); tauto.
Qed.

Lemma first_occurrences_NoDup (l : list string) : NoDup (first_occurrences l).
Proof.
  induction l as [|x l IH]; simpl; [constructor|].
  apply NoDup_cons. split; [|by apply NoDup_filter].
  rewrite list_elem_of_filter. by intros [H _].
Qed.

Lemma first_occurrences_sublist (l : list string) : first_occurrences l `sublist_of` l.
Proof.
  induction l as [|x l IH]; simpl; [done|].
  apply sublist_skip. etrans; [apply sublist_filter | done].
Qed.

(** ** The download phase as a whole *)

Lemma download_phase_cases dwl self zoom h_tiles v_tiles cropped full w :
  (∃ e w1,
     download_phase dwl self zoom h_tiles v_tiles cropped full w = (Raise e, w1)
     ∧ calls w1 = calls w)
  ∨ (∃ w1 column0 rest,
       calls w1 = calls w
       ∧ (∀ p x, fs w !! p = Some x → fs w1 !! p = Some x)
       ∧ pd_read_csv_column0 (path_pid self) w1 = (Ok column0, w1)
       ∧ rest `sublist_of` pd_unique column0
       ∧ download_phase dwl self zoom h_tiles v_tiles cropped full w
         = for_each
             (loop_body dwl self zoom h_tiles v_tiles cropped full
                (os_path_join (dir_output self) "panorama") rest)
             (seq 0 (length rest)) (Locals [] 0 0) w1).
Proof.
  unfold download_phase.
  set (out := os_path_join (dir_output self) "panorama").
  assert (∀ w1, calls w1 = calls w →
            (∀ p x, fs w !! p = Some x → fs w1 !! p = Some x) →
            (∃ e w2, (let* panoids := _read_pids self in
                      let* panoids_rest := _check_already self panoids in
                      for_each (loop_body dwl self zoom h_tiles v_tiles cropped full out
                                  panoids_rest)
                        (seq 0 (length panoids_rest)) (Locals [] 0 0)) w1
                     = (Raise e, w2) ∧ calls w2 = calls w)
            ∨ (∃ w2 column0 rest,
                 calls w2 = calls w
                 ∧ (∀ p x, fs w !! p = Some x → fs w2 !! p = Some x)
                 ∧ pd_read_csv_column0 (path_pid self) w2 = (Ok column0, w2)
                 ∧ rest `sublist_of` pd_unique column0
                 ∧ (let* panoids := _read_pids self in
                    let* panoids_rest := _check_already self panoids in
                    for_each (loop_body dwl self zoom h_tiles v_tiles cropped full out
                                panoids_rest)
                      (seq 0 (length panoids_rest)) (Locals [] 0 0)) w1
                   = for_each (loop_body dwl self zoom h_tiles v_tiles cropped full out rest)
                       (seq 0 (length rest)) (Locals [] 0 0) w2)) as Hrest.
  { intros w1 Hcalls Hfs.
    unfold _read_pids, _check_already, bind, ret, os_listdir.
    destruct (pd_read_csv_column0 (path_pid self) w1) as [[column0|e] w2] eqn:Hcsv.
    - assert (w2 = w1) as ->.
      { unfold pd_read_csv_column0 in Hcsv. destruct (path_pid self); [|done].
        destruct (fs w1 !! s) as [[|[]]|]; by simplify_eq. }
      destruct (os_path_isdir (fs w1) (dir_output self)); [|left; by eauto].
      right. exists w1, column0.
      exists (filter (λ pid, pid ∉ foldl (λ acc name, acc ∪ {[PyStr.split_0 "." name]})
                                 (∅ : gset string)
                                 (listing (dir_key (dir_output self)) (fs w1)))
                (pd_unique column0)).
      split_and!; [done..|apply sublist_filter|done].
    - left. exists e, w2. split; [done|].
      unfold pd_read_csv_column0 in Hcsv. destruct (path_pid self); [|by simplify_eq].
      destruct (fs w1 !! s) as [[|[]]|]; by simplify_eq. }
  pose proof (keeps_calls_makedirs out w) as Hcalls.
  pose proof (makedirs_keeps_files out w) as Hkeeps.
  destruct (os_makedirs out w) as [[[]|e] w0] eqn:Hmk; simpl in *.
  - rewrite (bind_ok _ _ _ _ _ Hmk). by apply Hrest.
  - left. exists e, w0. split; [by apply bind_raise|done].
Qed.

Lemma download_gsv_calls dwl self zoom h_tiles v_tiles cropped full w :
  calls (download_gsv dwl self zoom h_tiles v_tiles cropped full w).2
  = calls (download_phase dwl self zoom h_tiles v_tiles cropped full w).2.
Proof.
  unfold download_gsv, bind at 1.
  destruct (download_phase _ _ _ _ _ _ _ w) as [[st|e] w1]; simpl; [|done].
  unfold bind. pose proof (keeps_calls_projection_phase self w1) as Hp.
  by destruct (projection_phase self w1) as [[[]|e] w2].
Qed.

(** ** Identifiers are read once and dispatched at most once *)

(** C10: the list that [_read_pids] hands to the dedup filter is the first
    column of the CSV file with duplicates removed and first occurrences kept
    in their order; the identifiers handed to the tool during the run are
    taken from that list in order, so no identifier is dispatched twice, even
    when the CSV repeats it. *)
Theorem read_pids_unique_dispatched_once
    (dwl : downloader_tool) (self : StreetViewDownloader)
    (zoom h_tiles v_tiles : Z) (cropped full : bool)
    (p : string) (column0 : list string) (f : filesystem) (rs : list nat) :
  path_pid self = Some p →
  f !! p = Some (File (Table column0)) →
  let w := World f rs [] in
  let w' := (download_gsv dwl self zoom h_tiles v_tiles cropped full w).2 in
  _read_pids self w = (Ok (first_occurrences column0), w)
  ∧ concat (dispatched w') `sublist_of` first_occurrences column0
  ∧ NoDup (concat (dispatched w')).
Proof.
  intros Hp Hf w w'.
  assert (concat (dispatched w') `sublist_of` first_occurrences column0) as Hsub.
  { unfold w', dispatched. rewrite download_gsv_calls.
    destruct (download_phase_cases dwl self zoom h_tiles v_tiles cropped full w)
      as [(e & w1 & -> & Hc)|(w1 & col & rest & Hc & Hfs & Hcsv & Hrest & ->)].
    - simpl. rewrite Hc. simpl. apply sublist_nil_l.
    - assert (col = column0) as ->.
      { unfold pd_read_csv_column0 in Hcsv. rewrite Hp in Hcsv.
        rewrite (Hfs p _ Hf) in Hcsv. by simplify_eq. }
      rewrite pd_unique_first_occurrences in Hrest.
      etrans; [|exact Hrest].
      apply loop_sublist; [|done]. unfold dispatched. by rewrite Hc. }
  split_and!; [|done|].
  - unfold _read_pids, bind, pd_read_csv_column0. rewrite Hp. simpl. rewrite Hf.
    unfold ret. by rewrite pd_unique_first_occurrences.
  - eapply sublist_NoDup; [apply first_occurrences_NoDup | exact Hsub].
Qed.

Lemma read_pids_unique_dispatched_once_witness :
  path_pid (sv [] "" 2) = Some "pids.csv"
  ∧ disk ["a"; "b"; "a"; "c"; "b"; "d"] !! "pids.csv"
    = Some (File (Table ["a"; "b"; "a"; "c"; "b"; "d"]))
  ∧ let w := world0 ["a"; "b"; "a"; "c"; "b"; "d"] in
    let w' := (download_gsv (TileFetcher.dwl_multiple all_up) (sv [] "" 2)
                 2 4 2 false true w).2 in
    _read_pids (sv [] "" 2) w
    = (Ok (first_occurrences ["a"; "b"; "a"; "c"; "b"; "d"]), w)
    ∧ concat (dispatched w')
        `sublist_of` first_occurrences ["a"; "b"; "a"; "c"; "b"; "d"]
    ∧ NoDup (concat (dispatched w')).
Proof.
  split; [reflexivity|]. split; [reflexivity|].
  apply (read_pids_unique_dispatched_once (TileFetcher.dwl_multiple all_up)
           (sv [] "" 2) 2 4 2 false true "pids.csv"
           ["a"; "b"; "a"; "c"; "b"; "d"]
           (disk ["a"; "b"; "a"; "c"; "b"; "d"]) []); reflexivity.
Defined.

Example first_occurrences_run :
  first_occurrences ["a"; "b"; "a"; "c"; "b"; "d"] = ["a"; "b"; "c"; "d"]
  ∧ dispatched (download_gsv (TileFetcher.dwl_multiple all_up) (sv [] "" 2)
                  2 4 2 false true (world0 ["a"; "b"; "a"; "c"; "b"; "d"])).2
    = [["a"; "b"]].
Proof. split; vm_compute; reflexivity. Qed.

(** ** User agents *)

(** Every batch handed to the tool comes with [nthreads] user agents drawn
    from the pool without replacement (pairwise distinct when the pool has no
    repeated line).  Their number is the configured batch size, whatever the
    number of identifiers in the batch. *)
Lemma agents_sampled_per_batch
    (dwl : downloader_tool) (self : StreetViewDownloader)
    (zoom h_tiles v_tiles : Z) (cropped full : bool)
    (f : filesystem) (rs : list nat) :
  Forall (agents_ok self)
    (calls (download_gsv dwl self zoom h_tiles v_tiles cropped full
              (World f rs [])).2).
Proof.
  rewrite download_gsv_calls.
  destruct (download_phase_cases dwl self zoom h_tiles v_tiles cropped full
              (World f rs []))
    as [(e & w1 & -> & Hc)|(w1 & col & rest & Hc & _ & _ & _ & ->)].
  - simpl. rewrite Hc. constructor.
  - apply loop_agents. rewrite Hc. constructor.
Qed.

(** C9, at the list [a, b, c, d, e] with batch size 2 and a pool of three
    user agents: the second batch handed to the tool holds the one identifier
    [d] and is given two user agents, so the agents do not number one per
    identifier of the batch.  The batch is short because the identifier at
    index 2 was skipped. *)
Theorem agents_not_one_per_identifier :
  calls (download_gsv (TileFetcher.dwl_multiple all_up) (sv [] "" 2)
           2 4 2 false true (world0 abcde)).2
  = [Call_dwl_multiple ["a"; "b"] ["a"; "b"] 2 2 2 4 "out/panorama"
       ["UA-1"; "UA-2"] false true;
     Call_dwl_multiple ["d"] ["d"] 2 2 2 4 "out/panorama"
       ["UA-1"; "UA-2"] false true]
  ∧ length ["UA-1"; "UA-2"] ≠ length ["d"].
Proof. split; [vm_compute; reflexivity | discriminate]. Qed.

(** ** Counters *)

(** C2, at the list [a, b, c, d, e] with batch size 2 and every download
    failing: the run hands over the batches [a, b] and [d], three identifiers
    in all, and ends with an error count of 4: the failed batch [d] of size 1
    raised the counter by 2, the configured batch size, and not by its own
    size. *)
Theorem errors_exceed_batch_sizes :
  let '(r, w') := download_gsv (TileFetcher.dwl_multiple all_down) (sv [] "" 2)
                    2 4 2 false true (world0 abcde) in
  r = Ok (Locals [] 4 0)
  ∧ dispatched w' = [["a"; "b"]; ["d"]]
  ∧ 4 ≠ Z.of_nat (length ["a"; "b"]) + Z.of_nat (length ["d"]).
Proof. vm_compute. split_and!; [reflexivity..|discriminate]. Qed.

(** ** The failure log *)

(** C7, as the code has it: a batch is handed to the tool, which leaves the
    file system [f1].  When the tool returns normally, the scheduler writes
    nothing.  When the tool raises and [log_path] is the empty string, the
    scheduler writes nothing either.  When the tool raises and [log_path] is
    not empty, and the log can be opened for appending (it is a text file, or
    it does not exist yet and its directory does), the identifiers of the
    batch are appended to it, one per line and each line newline-terminated,
    after the text [t] that it held before. *)
Theorem failed_batch_logged
    (dwl : downloader_tool) (self : StreetViewDownloader)
    (zoom h_tiles v_tiles : Z) (cropped full : bool) (panorama_output : string)
    (st : locals) (w ws : world) (uas : list string)
    (r : result unit) (f1 : filesystem) :
  random_sample (user_agent self) (nthreads self) w = (Ok uas, ws) →
  dwl (task_pids st) (task_pids st) (nthreads self) zoom v_tiles h_tiles
    panorama_output uas cropped full (fs w) = (r, f1) →
  let after :=
    fs (dispatch dwl self zoom h_tiles v_tiles cropped full panorama_output st w).2 in
  (r = Ok tt → after = f1)
  ∧ (∀ e, r = Raise e → log_path self = "" → after = f1)
  ∧ (∀ e t, r = Raise e → log_path self ≠ "" →
       text_at f1 (log_path self) = Some t →
       after = <[log_path self := File (Text (t +:+ log_lines (task_pids st)))]> f1).
Proof.
  intros Hs Hd after. unfold after. clear after.
  destruct (dispatch_cases dwl self zoom h_tiles v_tiles cropped full
              panorama_output st w)
    as [[_ Hn]|(uas' & ws' & r' & f1' & Hs' & _ & _ & _ & _ & Hd' & Hr)].
  { destruct (random_sample_spec (user_agent self) (nthreads self) w)
      as [[Hs' _]|(? & ? & _ & _ & _ & ?%submseteq_length & ?)]; [congruence|lia]. }
  rewrite Hs in Hs'. simplify_eq. rewrite Hd in Hd'. simplify_eq.
  cbv zeta in Hr. split_and!.
  - intros ->. by rewrite Hr.
  - intros e -> Hlog. destruct Hr as (tenths & ->).
    by rewrite (proj2 (String.eqb_eq _ _) Hlog).
  - intros e t -> Hlog Ht. destruct Hr as (tenths & ->).
    rewrite (proj2 (String.eqb_neq _ _) Hlog).
    by rewrite (log_write_text self (task_pids st) _ t).
Qed.

Lemma failed_batch_logged_witness :
  random_sample agents 2 (World (<["fail.log" := File (Text "z" )]> (disk abcde)) [] [])
  = (Ok ["UA-1"; "UA-2"], World (<["fail.log" := File (Text "z")]> (disk abcde)) [] [])
  ∧ TileFetcher.dwl_multiple all_down ["a"; "b"] ["a"; "b"] 2 2 2 4 "out/panorama"
      ["UA-1"; "UA-2"] false true (<["fail.log" := File (Text "z")]> (disk abcde))
    = (Raise FetchError, <["fail.log" := File (Text "z")]> (disk abcde))
  ∧ log_path (sv [] "fail.log" 2) ≠ ""
  ∧ text_at (<["fail.log" := File (Text "z")]> (disk abcde))
      (log_path (sv [] "fail.log" 2)) = Some "z"
  ∧ fs (dispatch (TileFetcher.dwl_multiple all_down) (sv [] "fail.log" 2)
          2 4 2 false true "out/panorama" (Locals ["a"; "b"] 0 0)
          (World (<["fail.log" := File (Text "z")]> (disk abcde)) [] [])).2
    = <["fail.log" := File (Text ("z" +:+ log_lines ["a"; "b"]))]>
        (<["fail.log" := File (Text "z")]> (disk abcde)).
Proof.
  assert (log_path (sv [] "fail.log" 2) ≠ "") as Hlog by discriminate.
  split; [reflexivity|]. split; [reflexivity|]. split; [exact Hlog|].
  split; [reflexivity|].
  exact (proj2 (proj2
    (failed_batch_logged (TileFetcher.dwl_multiple all_down)
       (sv [] "fail.log" 2) 2 4 2 false true "out/panorama"
       (Locals ["a"; "b"] 0 0)
       (World (<["fail.log" := File (Text "z")]> (disk abcde)) [] [])
       (World (<["fail.log" := File (Text "z")]> (disk abcde)) [] [])
       ["UA-1"; "UA-2"] (Raise FetchError)
       (<["fail.log" := File (Text "z")]> (disk abcde)) eq_refl eq_refl))
    FetchError "z" eq_refl Hlog eq_refl).
Defined.

(** At a log path in a directory that does not exist, with batch size 2 and
    every download failing: the first batch [a, b] fails, [open] raises
    inside the handler, and the run ends there in [OSError].  The log
    destination is configured, the batch has failed, and none of its
    identifiers has been written: there is no log file. *)
Lemma missing_log_directory_not_logged :
  let '(r, w') := download_gsv (TileFetcher.dwl_multiple all_down)
                    (sv [] "nodir/fail.log" 2) 2 4 2 false true (world0 abcde) in
  r = Raise OSError
  ∧ dispatched w' = [["a"; "b"]]
  ∧ sleeps w' = 1%nat
  ∧ fs w' !! "nodir/fail.log" = None.
Proof. vm_compute. split_and!; reflexivity. Qed.

Example log_after_failed_run :
  fs (download_gsv (TileFetcher.dwl_multiple all_down) (sv [] "fail.log" 2)
        2 4 2 false true (world0 abcde)).2 !! "fail.log"
  = Some (File (Text ("a" +:+ newline +:+ "b" +:+ newline +:+ "d" +:+ newline))).
Proof. vm_compute. reflexivity. Qed.

(** ** The batches of a run *)

(** For a positive batch size, the first batch of a run holds [nthreads]
    identifiers and every later batch holds [nthreads - 1]: the identifier
    at each index that is a positive multiple of [nthreads] is skipped. *)
Lemma run_batch_shape
    (dwl : downloader_tool) (self : StreetViewDownloader)
    (zoom h_tiles v_tiles : Z) (cropped full : bool)
    (f : filesystem) (rs : list nat) :
  0 < nthreads self →
  batch_shape (nthreads self)
    (dispatched (download_gsv dwl self zoom h_tiles v_tiles cropped full
                   (World f rs [])).2).
Proof.
  intros Hn. unfold dispatched at 1. rewrite download_gsv_calls.
  destruct (download_phase_cases dwl self zoom h_tiles v_tiles cropped full
              (World f rs []))
    as [(e & w1 & -> & Hc)|(w1 & col & rest & Hc & _ & _ & _ & ->)].
  - simpl. by rewrite Hc.
  - apply loop_shape; [done| |done]. unfold dispatched. by rewrite Hc.
Qed.

(** C1, at the list [a, b, c, d, e] with batch size 2, for every behaviour of
    the tool: the batches handed over are [a, b] and then [d].  The
    identifiers [c] and [e], which sit at the indices that are multiples of
    the batch size, trigger the flush of the batch before them and are
    themselves never dispatched. *)
Theorem abcde_batches (dwl : downloader_tool) :
  dispatched (download_gsv dwl (sv [] "" 2) 2 4 2 false true (world0 abcde)).2
  = [["a"; "b"]; ["d"]].
Proof.
  vm_compute.
  repeat match goal with
         | |- context [dwl ?a ?b ?c ?d ?e ?f ?g ?h ?i ?j ?k] =>
             destruct (dwl a b c d e f g h i j k) as [[[]|?] ?]; vm_compute
         end.
  all: reflexivity.
Qed.

(** ** Resuming a run *)

Lemma elem_of_name_r (names : list string) : ∀ (acc : gset string) x,
  x ∈ foldl (λ acc name, acc ∪ {[PyStr.split_0 "." name]}) acc names
  ↔ x ∈ acc ∨ ∃ name, name ∈ names ∧ PyStr.split_0 "." name = x.
Proof.
  induction names as [|name names IH]; intros acc x; simpl.
  - split; [by left|]. intros [?|(? & Hnil & _)]; [done|]. by apply elem_of_nil in Hnil.
  - rewrite IH, elem_of_union, elem_of_singleton. split.
    + intros [[? | ->] | (name' & ? & ?)]; [by left| |].
      * right. exists name. split; [by left|done].
      * right. exists name'. split; [by right|done].
    + intros [? | (name' & [-> | ?]%elem_of_cons & ?)]; [by left; left| |].
      * left. by right.
      * right. by exists name'.
Qed.

(** What [_check_already] keeps.  Where [dir_output] is a directory, the
    call returns, changing nothing, the identifiers, in their order, that are
    not the part before the first dot of an entry of [dir_output] itself. *)
Lemma check_already_elem_of self (all_panoids : list string) w pid :
  os_path_isdir (fs w) (dir_output self) = true →
  ∃ rest, _check_already self all_panoids w = (Ok rest, w)
    ∧ rest `sublist_of` all_panoids
    ∧ (pid ∈ rest ↔
       pid ∈ all_panoids
       ∧ ∀ name, name ∈ listing (dir_key (dir_output self)) (fs w) →
                 PyStr.split_0 "." name ≠ pid).
Proof.
  intros Hdir. unfold _check_already, bind, os_listdir. rewrite Hdir.
  eexists. split; [reflexivity|]. split; [apply sublist_filter|].
  rewrite list_elem_of_filter, elem_of_name_r. split.
  - intros [Hno Hin]. split; [done|]. intros name Hname Heq.
    apply Hno. right. by exists name.
  - intros [Hin Hno]. split; [|done].
    intros [Hemp|(name & Hname & Heq)]; [by apply elem_of_empty in Hemp|].
    by apply (Hno name).
Qed.

Lemma check_already_elem_of_witness :
  os_path_isdir (fs (World (<["out/a.jpg" := File (Text "")]> (disk [])) [] []))
    (dir_output (sv [] "" 2)) = true
  ∧ ∃ rest,
      _check_already (sv [] "" 2) ["a"; "b"]
        (World (<["out/a.jpg" := File (Text "")]> (disk [])) [] [])
      = (Ok rest, World (<["out/a.jpg" := File (Text "")]> (disk [])) [] [])
      ∧ rest `sublist_of` ["a"; "b"]
      ∧ ("a" ∈ rest ↔
         "a" ∈ ["a"; "b"]
         ∧ ∀ name,
             name ∈ listing (dir_key (dir_output (sv [] "" 2)))
                      (fs (World (<["out/a.jpg" := File (Text "")]> (disk [])) [] [])) →
             PyStr.split_0 "." name ≠ "a").
Proof.
  split; [reflexivity|].
  apply (check_already_elem_of (sv [] "" 2) ["a"; "b"]
           (World (<["out/a.jpg" := File (Text "")]> (disk [])) [] []) "a").
  reflexivity.
Defined.

(** C3, at an output directory that already holds the panorama of [a]: the
    filter lists [dir_output], where the only entry is the [panorama]
    directory, and not [dir_output/panorama], where the panoramas are; so
    [a] is kept and handed to the tool again, whatever the tool does. *)
Theorem rerun_attempts_existing_panorama (dwl : downloader_tool) :
  listing "out/panorama" disk_rerun = ["a.jpg"]
  ∧ listing "out" disk_rerun = ["panorama"]
  ∧ (_check_already (sv [] "" 2) ["a"; "b"; "c"] (World disk_rerun [] [])).1
    = Ok ["a"; "b"; "c"]
  ∧ dispatched (download_gsv dwl (sv [] "" 2) 2 4 2 false true
                  (World disk_rerun [] [])).2
    = [["a"; "b"]].
Proof.
  split_and!; [vm_compute; reflexivity..|].
  vm_compute.
  repeat match goal with
         | |- context [dwl ?a ?b ?c ?d ?e ?f ?g ?h ?i ?j ?k] =>
             destruct (dwl a b c d e f g h i j k) as [[[]|?] ?]; vm_compute
         end.
  all: reflexivity.
Qed.

(** ** Validation of the styles *)

(** C4, as the code has it: the styles are checked after the download loop.
    With a style other than [perspective] and [fisheye] in the list, a run
    whose download phase ends normally raises [ValueError] in the world that
    the download phase left: nothing of the projection phase has happened, no
    directory made and no image written. *)
Theorem invalid_style_raises_after_download
    (dwl : downloader_tool) (self : StreetViewDownloader)
    (zoom h_tiles v_tiles : Z) (cropped full : bool) (w : world)
    (style : string) :
  style ∈ image_style self →
  style ∉ ["perspective"; "fisheye"] →
  download_gsv dwl self zoom h_tiles v_tiles cropped full w
  = match download_phase dwl self zoom h_tiles v_tiles cropped full w with
    | (Ok _, w1) =>
        (Raise (ValueError "Please input the correct image style. The correct image style should be 'perspective' or 'fisheye'."), w1)
    | (Raise e, w1) => (Raise e, w1)
    end.
Proof.
  intros Hin Hbad. unfold download_gsv, bind at 1.
  destruct (download_phase _ _ _ _ _ _ _ w) as [[st|e] w1]; [|done].
  unfold bind, projection_phase.
  destruct (image_style self) as [|s0 styles] eqn:Hstyles; [by apply elem_of_nil in Hin|].
  simpl length. simpl Nat.ltb. cbv iota.
  destruct (forallb _ (s0 :: styles)) eqn:Hall; [|done].
  exfalso. rewrite forallb_forall in Hall.
  assert (bool_decide (style ∈ ["perspective"; "fisheye"]) = true) as Hb.
  { apply Hall. rewrite <- Hstyles in *. by apply list_elem_of_In. }
  by apply bool_decide_eq_true in Hb.
Qed.

Lemma invalid_style_raises_after_download_witness :
  ("cubemap" ∈ image_style (sv ["cubemap"] "" 2))
  ∧ ("cubemap" ∉ ["perspective"; "fisheye"])
  ∧ download_gsv (TileFetcher.dwl_multiple all_up) (sv ["cubemap"] "" 2)
      2 4 2 false true (world0 abcde)
    = match download_phase (TileFetcher.dwl_multiple all_up) (sv ["cubemap"] "" 2)
              2 4 2 false true (world0 abcde) with
      | (Ok _, w1) =>
          (Raise (ValueError "Please input the correct image style. The correct image style should be 'perspective' or 'fisheye'."), w1)
      | (Raise e, w1) => (Raise e, w1)
      end.
Proof.
  assert ("cubemap" ∈ image_style (sv ["cubemap"] "" 2)) as Hin
    by (apply (bool_decide_unpack _); vm_compute; exact I).
  assert ("cubemap" ∉ ["perspective"; "fisheye"]) as Hbad
    by (apply (bool_decide_unpack _); vm_compute; exact I).
  split; [exact Hin|]. split; [exact Hbad|].
  exact (invalid_style_raises_after_download (TileFetcher.dwl_multiple all_up)
           (sv ["cubemap"] "" 2) 2 4 2 false true (world0 abcde) "cubemap"
           Hin Hbad).
Defined.

(** With the style [cubemap] configured, the run over [a, b, c, d, e] ends
    in [ValueError] only after two batches went to the tool and three
    panoramas were written. *)
Lemma invalid_style_downloads_first :
  let '(r, w') := download_gsv (TileFetcher.dwl_multiple all_up)
                    (sv ["cubemap"] "" 2) 2 4 2 false true (world0 abcde) in
  r = Raise (ValueError "Please input the correct image style. The correct image style should be 'perspective' or 'fisheye'.")
  ∧ dispatched w' = [["a"; "b"]; ["d"]]
  ∧ listing "out/panorama" (fs (world0 abcde)) = []
  ∧ listing "out/panorama" (fs w') = ["a.jpg"; "b.jpg"; "d.jpg"].
Proof. vm_compute. split_and!; reflexivity. Qed.

(** ** Assembly of one panorama *)

Lemma grid_length (h_tiles v_tiles : nat) :
  length (TileFetcher.grid h_tiles v_tiles) = (h_tiles * v_tiles)%nat.
Proof.
  unfold TileFetcher.grid. generalize 0%nat at 2 as y0.
  induction v_tiles as [|v IH]; intros y0; simpl; [lia|].
  rewrite length_app, length_map, length_seq, IH. lia.
Qed.

Lemma request_tile_is_Some net id zoom ua c :
  is_Some (TileFetcher.request_tile net id zoom ua c) ↔ net id zoom c.1 c.2 ua = true.
Proof.
  unfold TileFetcher.request_tile. destruct (net id zoom c.1 c.2 ua).
  - split; [done|by eexists].
  - split; [by intros [? ?]|done].
Qed.

(** C5, on the tile fetcher as the specification describes it: after
    [fetch_and_assemble] the panorama file of the identifier exists if and
    only if every one of the [h_tiles * v_tiles] tile requests succeeded; as
    soon as one request fails the call raises and leaves the file system
    exactly as it found it. *)
Theorem panorama_all_or_nothing
    (net : TileFetcher.network) (id : string) (zoom : Z) (h_tiles v_tiles : nat)
    (user_agent : string) (crop : bool) (out_path : string) (f : filesystem) :
  f !! os_path_join out_path (id +:+ ".jpg") = None →
  let '(r, f') := TileFetcher.fetch_and_assemble net id zoom h_tiles v_tiles
                    user_agent crop out_path f in
  length (TileFetcher.grid h_tiles v_tiles) = (h_tiles * v_tiles)%nat
  ∧ (is_Some (f' !! os_path_join out_path (id +:+ ".jpg"))
     ↔ Forall (λ c, net id zoom c.1 c.2 user_agent = true)
         (TileFetcher.grid h_tiles v_tiles))
  ∧ (Exists (λ c, net id zoom c.1 c.2 user_agent = false)
       (TileFetcher.grid h_tiles v_tiles)
     → r = Raise FetchError ∧ f' = f).
Proof.
  intros Hfresh. unfold TileFetcher.fetch_and_assemble.
  pose proof (mapM_is_Some (TileFetcher.request_tile net id zoom user_agent)
                (TileFetcher.grid h_tiles v_tiles)) as Hall.
  assert (Forall (is_Some ∘ TileFetcher.request_tile net id zoom user_agent)
            (TileFetcher.grid h_tiles v_tiles)
          ↔ Forall (λ c, net id zoom c.1 c.2 user_agent = true)
              (TileFetcher.grid h_tiles v_tiles)) as Hiff.
  { apply Forall_proper; [|done]. intros c. simpl. apply request_tile_is_Some. }
  rewrite Hiff in Hall.
  destruct (mapM _ _) as [tiles|]; (split; [apply grid_length|]).
  - assert (Forall (λ c, net id zoom c.1 c.2 user_agent = true)
              (TileFetcher.grid h_tiles v_tiles)) as Hok by (apply Hall; by eexists).
    split.
    + rewrite lookup_insert_eq. split; [done|by eexists].
    + intros Hex. exfalso. apply Exists_exists in Hex as (c & Hc & Hfail).
      rewrite Forall_forall in Hok. specialize (Hok c Hc). congruence.
  - split; [|done]. rewrite Hfresh. split; [by intros [? ?]|].
    intros Hok. apply Hall in Hok. by destruct Hok.
Qed.

Lemma panorama_all_or_nothing_witness :
  disk abcde !! os_path_join "out/panorama" ("a" +:+ ".jpg") = None
  ∧ let '(r, f') := TileFetcher.fetch_and_assemble
                      (λ id zoom x y ua, negb ((x =? 3)%nat && (y =? 1)%nat))
                      "a" 2 4 2 "UA-1" false "out/panorama" (disk abcde) in
    length (TileFetcher.grid 4 2) = (4 * 2)%nat
    ∧ (is_Some (f' !! os_path_join "out/panorama" ("a" +:+ ".jpg"))
       ↔ Forall (λ c, negb ((c.1 =? 3)%nat && (c.2 =? 1)%nat) = true)
           (TileFetcher.grid 4 2))
    ∧ (Exists (λ c, negb ((c.1 =? 3)%nat && (c.2 =? 1)%nat) = false)
         (TileFetcher.grid 4 2)
       → r = Raise FetchError ∧ f' = disk abcde).
Proof.
  split; [reflexivity|].
  apply (panorama_all_or_nothing
           (λ id zoom x y ua, negb ((x =? 3)%nat && (y =? 1)%nat))
           "a" 2 4 2 "UA-1" false "out/panorama" (disk abcde)).
  reflexivity.
Defined.

Example one_tile_down_no_panorama :
  TileFetcher.fetch_and_assemble
    (λ id zoom x y ua, negb ((x =? 3)%nat && (y =? 1)%nat))
    "a" 2 4 2 "UA-1" false "out/panorama" (disk abcde)
  = (Raise FetchError, disk abcde).
Proof. reflexivity. Qed.

(** ** Perspective outputs *)

Lemma run_perspective_100 (path_input path_output : string) (w : world) :
  run "perspective" path_input path_output 100 w
  = (let* img_raw := cv2_imread path_input in
     let* _ := cv2_imwrite
                 (PyStr.replace ".png" "_Direction_0_FOV_90_aspect_9--16_raw.png"
                    path_output)
                 (Perspective img_raw 90 0 0 225 400) in
     let* _ := cv2_imwrite
                 (PyStr.replace ".png" "_Direction_90_FOV_90_aspect_9--16_raw.png"
                    path_output)
                 (Perspective img_raw 90 90 0 225 400) in
     let* _ := cv2_imwrite
                 (PyStr.replace ".png" "_Direction_180_FOV_90_aspect_9--16_raw.png"
                    path_output)
                 (Perspective img_raw 90 180 0 225 400) in
     let* _ := cv2_imwrite
                 (PyStr.replace ".png" "_Direction_270_FOV_90_aspect_9--16_raw.png"
                    path_output)
                 (Perspective img_raw 90 270 0 225 400) in
     ret tt) w.
Proof. reflexivity. Qed.

(** With [show_size = 100], the value [download_gsv] passes, the perspective
    phase handles every entry of the panorama directory in the same way: the
    source is read once and four writes follow, one per heading 0, 90, 180
    and 270. *)
Lemma transform_image_perspective_100 (self : StreetViewDownloader) (w : world) :
  _transform_image self "perspective" 100 w
  = (let dir_input := os_path_join (dir_output self) "panorama" in
     let dir_output := os_path_join (dir_output self) "perspective" in
     let* _ := os_makedirs dir_output in
     let* names := os_listdir dir_input in
     for_each (λ name _,
       let path_output :=
         os_path_join dir_output (PyStr.replace "jpg" "png" name) in
       let* img_raw := cv2_imread (os_path_join dir_input name) in
       let* _ := cv2_imwrite
                   (PyStr.replace ".png" "_Direction_0_FOV_90_aspect_9--16_raw.png"
                      path_output)
                   (Perspective img_raw 90 0 0 225 400) in
       let* _ := cv2_imwrite
                   (PyStr.replace ".png" "_Direction_90_FOV_90_aspect_9--16_raw.png"
                      path_output)
                   (Perspective img_raw 90 90 0 225 400) in
       let* _ := cv2_imwrite
                   (PyStr.replace ".png" "_Direction_180_FOV_90_aspect_9--16_raw.png"
                      path_output)
                   (Perspective img_raw 90 180 0 225 400) in
       let* _ := cv2_imwrite
                   (PyStr.replace ".png" "_Direction_270_FOV_90_aspect_9--16_raw.png"
                      path_output)
                   (Perspective img_raw 90 270 0 225 400) in
       ret tt) names tt) w.
Proof.
  unfold _transform_image. cbv zeta.
  apply bind_ext. intros _ w1. apply bind_ext. intros names w2.
  apply for_each_ext. intros name [] w3 _.
  unfold process_image. apply run_perspective_100.
Qed.

(** The projection phase calls [_transform_image] with [show_size = 100]
    for each configured style. *)
Lemma projection_phase_perspective self w :
  image_style self = ["perspective"] →
  projection_phase self w
  = (let* _ := _transform_image self "perspective" 100 in ret tt) w.
Proof.
  intros H. unfold projection_phase. rewrite H. simpl. unfold bind.
  by destruct (_transform_image self "perspective" 100 w) as [[[]|e] w1].
Qed.

Example perspective_files_of_a :
  listing "out/perspective"
    (fs (projection_phase (sv ["perspective"] "" 2)
           (World (<["out/panorama/a.jpg" := File (Img (Canvas 1 1 [Tile "a" 2 0 0] false))]>
                     (<["out/panorama" := Dir]> (disk []))) [] [])).2)
  = ["a_Direction_90_FOV_90_aspect_9--16_raw.png";
     "a_Direction_180_FOV_90_aspect_9--16_raw.png";
     "a_Direction_270_FOV_90_aspect_9--16_raw.png";
     "a_Direction_0_FOV_90_aspect_9--16_raw.png"].
Proof. vm_compute. reflexivity. Qed.

(** *** Names built by [replace]

    For a stem in which the pattern does not occur, [replace] touches the
    extension only. *)

Lemma prefix_cons a b (s1 s2 : string) :
  String.prefix (String a s1) (String b s2)
  = if ascii_dec a b then String.prefix s1 s2 else false.
Proof. reflexivity. Qed.

Ltac prefix_next s :=
  let c := fresh "c" in
  destruct s as [|c s]; [reflexivity|];
  rewrite append_cons, !prefix_cons;
  match goal with
  | |- context [ascii_dec ?a c] => destruct (ascii_dec a c); [|done]
  end.

Lemma prefix_jpg_app (s : string) :
  String.prefix "jpg" s = false → String.prefix "jpg" (s +:+ ".jpg") = false.
Proof. prefix_next s. prefix_next s. prefix_next s. by destruct s. Qed.

Lemma prefix_png_app (s : string) :
  s ≠ "" → String.prefix ".png" s = false →
  String.prefix ".png" (s +:+ ".png") = false.
Proof.
  intros Hs. destruct s as [|c s]; [done|]. clear Hs.
  rewrite append_cons, !prefix_cons. destruct (ascii_dec "." c); [|done].
  prefix_next s. prefix_next s. prefix_next s. by destruct s.
Qed.

Lemma replace_jpg_clean (id : string) :
  PyStr.occurs "jpg" id = false →
  PyStr.replace "jpg" "png" (id +:+ ".jpg") = id +:+ ".png".
Proof.
  unfold PyStr.replace. induction id as [|c id IH]; [done|].
  intros [Hpre Hocc]%orb_false_iff.
  rewrite !append_cons. cbn [PyStr.replace_go].
  rewrite <- (append_cons c id ".jpg"), (prefix_jpg_app _ Hpre).
  f_equal. by apply IH.
Qed.

Lemma replace_png_clean (stem suffix : string) :
  PyStr.occurs ".png" stem = false →
  PyStr.replace ".png" suffix (stem +:+ ".png") = stem +:+ suffix.
Proof.
  unfold PyStr.replace. induction stem as [|c stem IH].
  - intros _. exact (append_empty_r suffix).
  - intros [Hpre Hocc]%orb_false_iff.
    assert (String c stem ≠ "") as Hne by done.
    rewrite !append_cons. cbn [PyStr.replace_go].
    rewrite <- (append_cons c stem ".png"), (prefix_png_app _ Hne Hpre).
    f_equal. by apply IH.
Qed.

Lemma os_path_join_app (a b c : string) :
  b ≠ "" → os_path_join a (b +:+ c) = os_path_join a b +:+ c.
Proof.
  intros Hb. unfold os_path_join.
  destruct b as [|ch b]; [done|]. rewrite append_cons. simpl.
  destruct (Ascii.eqb ch "/"); [done|].
  destruct (String.eqb a "" || PyStr.endswith_slash a);
    by rewrite <- ?append_cons, ?append_assoc.
Qed.

(** For an identifier that does not contain [jpg], in an output directory
    whose path together with the identifier does not contain [.png], the
    perspective file of heading [theta] is named after the identifier. *)
Lemma perspective_path_clean (dir_input dir_output id suffix : string) (show_size : Z) :
  id ≠ "" →
  PyStr.occurs "jpg" id = false →
  PyStr.occurs ".png" (os_path_join dir_output id) = false →
  let '(_, path_output, _) :=
    process_image dir_input dir_output (id +:+ ".jpg") show_size in
  PyStr.replace ".png" suffix path_output = os_path_join dir_output id +:+ suffix.
Proof.
  intros Hid Hjpg Hpng. unfold process_image.
  rewrite replace_jpg_clean, os_path_join_app by done.
  by apply replace_png_clean.
Qed.

(** *** The four files of one panorama

    The name of a panorama ends in [.jpg]; whatever else it contains, the
    last [jpg] becomes [png], so the output path ends in [.png], and that last
    [.png] becomes the suffix of the heading. *)













(** C8, at a panorama whose identifier contains the letters [jpg]: the
    source file is [xjpgy.jpg], and the four perspective files are named after
    [xpngy], not after the identifier, because [name.replace('jpg', 'png')]
    rewrites every occurrence and not only the extension. *)
Theorem perspective_names_of_xjpgy :
  listing "out/panorama" disk_xjpgy = ["xjpgy.jpg"]
  ∧ process_image "out/panorama" "out/perspective" "xjpgy.jpg" 100
    = ("out/panorama/xjpgy.jpg", "out/perspective/xpngy.png", 100)
  ∧ listing "out/perspective"
      (fs (projection_phase (sv ["perspective"] "" 2) (World disk_xjpgy [] [])).2)
    = ["xpngy_Direction_90_FOV_90_aspect_9--16_raw.png";
       "xpngy_Direction_180_FOV_90_aspect_9--16_raw.png";
       "xpngy_Direction_270_FOV_90_aspect_9--16_raw.png";
       "xpngy_Direction_0_FOV_90_aspect_9--16_raw.png"].
Proof. split_and!; vm_compute; reflexivity. Qed.

(** * Further properties of the downloader *)

(** ** Loops, one iteration at a time *)

Lemma for_each_snoc {A St} (body : A → St → M St) (l : list A) (x : A) st w :
  for_each body (l ++ [x]) st w
  = match for_each body l st w with
    | (Ok st1, w1) => body x st1 w1
    | (Raise e, w1) => (Raise e, w1)
    end.
Proof.
  revert st w. induction l as [|y l IH]; intros st w; simpl.
  - unfold bind, ret. by destruct (body x st w) as [[st1|e] w1].
  - unfold bind. destruct (body y st w) as [[st1|e] w1]; [apply IH|done].
Qed.

Lemma batch_shape_snoc (n : Z) (m : nat) (a : list (list string)) (p : list string) :
  batch_shape n a →
  (Z.of_nat m ≤ n ↔ a = []) →
  (Z.of_nat m ≤ n → Z.of_nat (length p) = n) →
  (n < Z.of_nat m → Z.of_nat (length p) = n - 1) →
  batch_shape n (a ++ [p]).
Proof.
  intros Hshape Hfirst Hfull Hshort. destruct a as [|first later]; simpl.
  - split; [|constructor]. apply Hfull. by apply Hfirst.
  - destruct Hshape as [Hf Hl]. split; [done|].
    apply Forall_app. split; [done|]. apply Forall_singleton, Hshort.
    destruct (Z.le_gt_cases (Z.of_nat m) n) as [Hle|]; [|lia].
    by apply Hfirst in Hle.
Qed.

Lemma kept_indices_S (n : Z) (m : nat) :
  kept_indices n (S m)
  = (kept_indices n m
     ++ if decide (m = 0%nat ∨ Z.of_nat m `mod` n ≠ 0) then [m] else [])%list.
Proof.
  unfold kept_indices. by rewrite seq_S, filter_app.
Qed.

(** ** [_get_nthreads_pid] *)

Section GetNthreadsPid.

Variable self : StreetViewDownloader.
Variable panoids : list string.

#[local] Abbreviation n := (nthreads self).
#[local] Abbreviation gbody := (nthreads_pid_body self panoids).

Lemma nthreads_pid_body_append i st w :
  n ≠ 0 → i = 0%nat ∨ Z.of_nat i `mod` n ≠ 0 →
  gbody i st w = (Ok (st.1, st.2 ++ [panoids !!! i])%list, w).
Proof.
  intros Hn Hi. unfold nthreads_pid_body, py_mod.
  rewrite (proj2 (Z.eqb_neq n 0) Hn).
  rewrite (bind_ok _ _ _ (Z.of_nat i `mod` n) w) by done.
  destruct Hi as [->|Hi].
  - by rewrite orb_true_r.
  - by rewrite (proj2 (Z.eqb_neq _ 0) Hi).
Qed.

Lemma nthreads_pid_body_flush i st w :
  n ≠ 0 → ¬ (i = 0%nat ∨ Z.of_nat i `mod` n ≠ 0) →
  gbody i st w = (Ok (st.1 ++ [st.2], [])%list, w).
Proof.
  intros Hn Hi. unfold nthreads_pid_body, py_mod.
  rewrite (proj2 (Z.eqb_neq n 0) Hn).
  rewrite (bind_ok _ _ _ (Z.of_nat i `mod` n) w) by done.
  assert (Z.of_nat i `mod` n = 0) as ->.
  { destruct (decide (Z.of_nat i `mod` n = 0)); [done|]. exfalso. apply Hi. by right. }
  assert (i ≠ 0%nat) as Hi0 by (intros ->; apply Hi; by left).
  simpl. by rewrite (proj2 (Nat.eqb_neq i 0) Hi0).
Qed.

(** The pair [(all_pid, panos)] after [m] iterations. *)
Lemma nthreads_pid_state (m : nat) :
  0 < n → (m ≤ length panoids)%nat →
  ∃ all_pid panos,
    (∀ w, for_each gbody (seq 0 m) ([], []) w = (Ok (all_pid, panos), w))
    ∧ (concat all_pid ++ panos)%list = map (λ i, panoids !!! i) (kept_indices n m)
    ∧ Z.of_nat (length panos) = fill n m
    ∧ batch_shape n all_pid
    ∧ (Z.of_nat m ≤ n ↔ all_pid = [])
    ∧ (Z.of_nat m ≤ n → panos = take m panoids)
    ∧ (n < Z.of_nat m → ∃ later, all_pid = take (Z.to_nat n) panoids :: later).
Proof.
  intros Hn. induction m as [|m IH]; intros Hm.
  - exists [], []. split_and!; [done|done| |done| |done|].
    + unfold fill. change (Z.of_nat 0) with 0. by destruct (Z.leb_spec 0 n); [|lia].
    + split; [done|]. change (Z.of_nat 0) with 0. lia.
    + change (Z.of_nat 0) with 0. lia.
  - destruct IH as (a & p & Hrun & Hcat & Hlen & Hshape & Hfirst & Hsmall & Hbig); [lia|].
    rewrite kept_indices_S, seq_S. simpl.
    destruct (decide (m = 0%nat ∨ Z.of_nat m `mod` n ≠ 0)) as [Hk|Hk].
    + assert (Z.of_nat m ≠ n) as Hmn.
      { intros Heq. destruct Hk as [->|Hk]; [simpl in Heq; lia|].
        rewrite Heq, Z_mod_same_full in Hk. done. }
      exists a, (p ++ [panoids !!! m])%list. split_and!.
      * intros w. rewrite for_each_snoc, Hrun.
        by rewrite nthreads_pid_body_append by (done || lia).
      * by rewrite app_assoc, Hcat, map_app.
      * rewrite length_app, Nat2Z.inj_add, Hlen. simpl.
        rewrite (fill_append self m Hn); [lia|]. destruct Hk; [by right|by left].
      * done.
      * rewrite <- Hfirst, Nat2Z.inj_succ. lia.
      * intros Hle. rewrite Hsmall by lia.
        symmetry. apply take_S_r, list_lookup_lookup_total_lt. lia.
      * intros Hlt. apply Hbig. lia.
    + assert (Z.of_nat m `mod` n = 0 ∧ m ≠ 0%nat) as [Hmod Hm0].
      { split; [|intros ->; apply Hk; by left].
        destruct (decide (Z.of_nat m `mod` n = 0)); [done|]. exfalso. apply Hk. by right. }
      destruct (fill_flush self m Hn Hmod Hm0) as (Hge & Hnext & Hfull & Hshort).
      exists (a ++ [p])%list, []. split_and!.
      * intros w. rewrite for_each_snoc, Hrun.
        by rewrite nthreads_pid_body_flush by (done || lia).
      * rewrite concat_app. simpl. by rewrite !app_nil_r, Hcat.
      * by rewrite Hnext.
      * apply (batch_shape_snoc n m); [done|done|..]; intros ?; rewrite Hlen; auto.
      * rewrite Nat2Z.inj_succ. split; [lia|].
        intros Happ. by apply app_eq_nil in Happ as [_ ?].
      * rewrite Nat2Z.inj_succ. lia.
      * intros _. destruct (decide (Z.of_nat m = n)) as [Heq|Hne].
        -- exists []. rewrite (proj1 Hfirst) by lia. rewrite Hsmall by lia.
           simpl. by rewrite <- Heq, Nat2Z.id.
        -- destruct Hbig as [later ->]; [lia|]. by exists (later ++ [p])%list.
Qed.

End GetNthreadsPid.

(** [_get_nthreads_pid], for a positive batch size, returns normally and
    leaves the world alone.  The first batch it returns holds [nthreads]
    identifiers and every later one [nthreads - 1]; read in order, and
    followed by the identifiers of the last, unfinished group, which is not
    returned, the batches are the identifiers at the indices that are not
    positive multiples of [nthreads]. *)
Theorem get_nthreads_pid_batches (self : StreetViewDownloader)
    (panoids : list string) (w : world) :
  0 < nthreads self →
  ∃ batches leftover,
    _get_nthreads_pid self panoids w = (Ok batches, w)
    ∧ batch_shape (nthreads self) batches
    ∧ (concat batches ++ leftover)%list
      = map (λ i, panoids !!! i) (kept_indices (nthreads self) (length panoids))
    ∧ Z.of_nat (length leftover) = fill (nthreads self) (length panoids).
Proof.
  intros Hn.
  destruct (nthreads_pid_state self panoids (length panoids) Hn (le_n _))
    as (a & p & Hrun & Hcat & Hlen & Hshape & _).
  exists a, p. split_and!; [|done..].
  unfold _get_nthreads_pid. by rewrite (bind_ok _ _ _ _ _ (Hrun w)).
Qed.

Lemma get_nthreads_pid_batches_witness :
  0 < nthreads (sv [] "" 2)
  ∧ ∃ batches leftover,
      _get_nthreads_pid (sv [] "" 2) abcde (world0 [])
      = (Ok batches, world0 [])
      ∧ batch_shape (nthreads (sv [] "" 2)) batches
      ∧ (concat batches ++ leftover)%list
        = map (λ i, abcde !!! i)
            (kept_indices (nthreads (sv [] "" 2)) (length abcde))
      ∧ Z.of_nat (length leftover) = fill (nthreads (sv [] "" 2)) (length abcde).
Proof.
  split; [reflexivity|].
  apply (get_nthreads_pid_batches (sv [] "" 2) abcde (world0 [])). reflexivity.
Defined.

Example get_nthreads_pid_abcde :
  (_get_nthreads_pid (sv [] "" 2) abcde (world0 [])).1 = Ok [["a"; "b"]; ["d"]].
Proof. reflexivity. Qed.

(** With at most [nthreads] identifiers, [_get_nthreads_pid] returns no
    batch at all: the identifiers stay in the group that is never returned. *)
Theorem get_nthreads_pid_short (self : StreetViewDownloader)
    (panoids : list string) (w : world) :
  0 < nthreads self →
  Z.of_nat (length panoids) ≤ nthreads self →
  _get_nthreads_pid self panoids w = (Ok [], w).
Proof.
  intros Hn Hle.
  destruct (nthreads_pid_state self panoids (length panoids) Hn (le_n _))
    as (a & p & Hrun & _ & _ & _ & Hfirst & _).
  unfold _get_nthreads_pid. rewrite (bind_ok _ _ _ _ _ (Hrun w)).
  by rewrite (proj1 Hfirst Hle).
Qed.

Lemma get_nthreads_pid_short_witness :
  0 < nthreads (sv [] "" 5)
  ∧ Z.of_nat (length abcde) ≤ nthreads (sv [] "" 5)
  ∧ _get_nthreads_pid (sv [] "" 5) abcde (world0 []) = (Ok [], world0 []).
Proof.
  split; [reflexivity|]. split; [discriminate|].
  apply (get_nthreads_pid_short (sv [] "" 5) abcde (world0 []));
    [reflexivity|discriminate].
Defined.

(** With more than [nthreads] identifiers, the first batch of
    [_get_nthreads_pid] is made of the first [nthreads] identifiers. *)
Theorem get_nthreads_pid_first_batch (self : StreetViewDownloader)
    (panoids : list string) (w : world) :
  0 < nthreads self →
  nthreads self < Z.of_nat (length panoids) →
  ∃ later,
    _get_nthreads_pid self panoids w
    = (Ok (take (Z.to_nat (nthreads self)) panoids :: later), w).
Proof.
  intros Hn Hgt.
  destruct (nthreads_pid_state self panoids (length panoids) Hn (le_n _))
    as (a & p & Hrun & _ & _ & _ & _ & _ & Hbig).
  destruct (Hbig Hgt) as [later ->]. exists later.
  unfold _get_nthreads_pid. by rewrite (bind_ok _ _ _ _ _ (Hrun w)).
Qed.

Lemma get_nthreads_pid_first_batch_witness :
  0 < nthreads (sv [] "" 2)
  ∧ nthreads (sv [] "" 2) < Z.of_nat (length abcde)
  ∧ ∃ later,
      _get_nthreads_pid (sv [] "" 2) abcde (world0 [])
      = (Ok (take (Z.to_nat (nthreads (sv [] "" 2))) abcde :: later), world0 []).
Proof.
  split; [reflexivity|]. split; [reflexivity|].
  apply (get_nthreads_pid_first_batch (sv [] "" 2) abcde (world0 [])); reflexivity.
Defined.

(** The modulo of [_get_nthreads_pid] is taken before the index is compared
    with 0: a batch size of 0 raises [ZeroDivisionError] on every list but the
    empty one, for which the result is the empty list. *)
Theorem get_nthreads_pid_zero (self : StreetViewDownloader)
    (panoids : list string) (w : world) :
  nthreads self = 0 →
  _get_nthreads_pid self panoids w
  = (match panoids with [] => Ok [] | _ :: _ => Raise ZeroDivisionError end, w).
Proof.
  intros Hn. unfold _get_nthreads_pid. destruct panoids as [|pid panoids]; [done|].
  simpl. unfold bind, nthreads_pid_body, py_mod. by rewrite Hn.
Qed.

Lemma get_nthreads_pid_zero_witness :
  nthreads (sv [] "" 0) = 0
  ∧ _get_nthreads_pid (sv [] "" 0) abcde (world0 [])
    = (Raise ZeroDivisionError, world0 []).
Proof.
  split; [reflexivity|].
  apply (get_nthreads_pid_zero (sv [] "" 0) abcde (world0 [])). reflexivity.
Defined.

(** ** The batching loop of [download_gsv], continued *)

Lemma download_phase_pending dwl self zoom h_tiles v_tiles cropped full w :
  match pending self w with
  | (Ok rest, w1) =>
      calls w1 = calls w
      ∧ download_phase dwl self zoom h_tiles v_tiles cropped full w
        = for_each
            (loop_body dwl self zoom h_tiles v_tiles cropped full
               (os_path_join (dir_output self) "panorama") rest)
            (seq 0 (length rest)) (Locals [] 0 0) w1
  | (Raise e, w1) =>
      calls w1 = calls w
      ∧ download_phase dwl self zoom h_tiles v_tiles cropped full w = (Raise e, w1)
  end.
Proof.
  assert (keeps_calls (pending self)) as Hkeep.
  { apply keeps_calls_bind; [apply keeps_calls_makedirs|]. intros _.
    apply keeps_calls_bind; [apply keeps_calls_read_pids|]. intros.
    apply keeps_calls_check_already. }
  specialize (Hkeep w). unfold pending, download_phase in *. unfold bind in *.
  destruct (os_makedirs _ w) as [[[]|e] w1]; [|done].
  destruct (_read_pids self w1) as [[panoids|e] w2]; [|done].
  by destruct (_check_already self panoids w2) as [[rest|e] w3].
Qed.

Lemma download_gsv_ok dwl self zoom h_tiles v_tiles cropped full w st w' :
  download_gsv dwl self zoom h_tiles v_tiles cropped full w = (Ok st, w') →
  ∃ w2, download_phase dwl self zoom h_tiles v_tiles cropped full w = (Ok st, w2)
        ∧ calls w' = calls w2.
Proof.
  intros Hrun. pose proof (download_gsv_calls dwl self zoom h_tiles v_tiles cropped full w)
    as Hcalls. rewrite Hrun in Hcalls. simpl in Hcalls.
  unfold download_gsv, bind in Hrun.
  destruct (download_phase _ _ _ _ _ _ _ w) as [[st2|e] w2]; [|done].
  destruct (projection_phase self w2) as [[[]|e] w3]; [|done].
  unfold ret in Hrun. simplify_eq. by exists w2.
Qed.

Lemma sleeps_app w (more : list event) :
  sleeps (World (fs w) (rng w) (calls w ++ more))
  = (sleeps w + length (filter is_sleep more))%nat.
Proof. unfold sleeps. simpl. by rewrite filter_app, length_app. Qed.

Section RunFacts.

Variable dwl_multiple : downloader_tool.
Variable self : StreetViewDownloader.
Variables zoom h_tiles v_tiles : Z.
Variables cropped full : bool.
Variable panorama_output : string.
Variable panoids_rest : list string.

#[local] Abbreviation n := (nthreads self).
#[local] Abbreviation body :=
  (loop_body dwl_multiple self zoom h_tiles v_tiles cropped full
     panorama_output panoids_rest).

(** The first [nthreads] iterations only collect identifiers. *)
Lemma loop_prefix_appends (m : nat) e g w :
  0 < n → Z.of_nat m ≤ n → (m ≤ length panoids_rest)%nat →
  for_each body (seq 0 m) (Locals [] e g) w
  = (Ok (Locals (take m panoids_rest) e g), w).
Proof.
  intros Hn. induction m as [|m IH]; intros Hle Hm; [done|].
  rewrite seq_S, for_each_snoc, IH by lia. simpl.
  rewrite loop_body_append; [|lia|].
  - simpl. do 3 f_equal. symmetry. apply take_S_r, list_lookup_lookup_total_lt. lia.
  - destruct m as [|m]; [by right|left]. rewrite Z.mod_small; lia.
Qed.

(** As long as the loop goes on, the batches handed to the tool and the
    batch in the making are the pair that the loop of [_get_nthreads_pid]
    holds at the same index. *)
Lemma loop_tracks_get_nthreads_pid st w :
  dispatched w = [] → task_pids st = [] →
  match for_each body (seq 0 (length panoids_rest)) st w with
  | (Ok st', w') =>
      ∀ w0, for_each (nthreads_pid_body self panoids_rest)
              (seq 0 (length panoids_rest)) ([], []) w0
            = (Ok (dispatched w', task_pids st'), w0)
  | (Raise _, _) => True
  end.
Proof.
  intros HD Ht.
  pose proof (for_each_rule body
    (λ i st w, ∀ w0, for_each (nthreads_pid_body self panoids_rest) (seq 0 i) ([], []) w0
                     = (Ok (dispatched w, task_pids st), w0))
    (λ _, True) (seq 0 (length panoids_rest)) 0%nat st w) as Hrule.
  rewrite length_seq in Hrule.
  assert (∀ (j i : nat) st1 w1,
    seq 0 (length panoids_rest) !! j = Some i →
    (∀ w0, for_each (nthreads_pid_body self panoids_rest) (seq 0 j) ([], []) w0
           = (Ok (dispatched w1, task_pids st1), w0)) →
    match body i st1 w1 with
    | (Ok st', w') =>
        ∀ w0, for_each (nthreads_pid_body self panoids_rest) (seq 0 (S j)) ([], []) w0
              = (Ok (dispatched w', task_pids st'), w0)
    | (Raise _, _) => True
    end) as Hbody.
  { intros j i st1 w1 [Hi Hj]%lookup_seq HI. simpl in Hi. subst i.
    destruct (decide (n = 0)) as [Hn0|Hn].
    { unfold loop_body, py_mod. by rewrite Hn0. }
    destruct (decide (Z.of_nat j `mod` n ≠ 0 ∨ j = 0%nat)) as [Hk|Hk].
    - rewrite loop_body_append by done. intros w0.
      rewrite seq_S, for_each_snoc, HI. simpl.
      rewrite nthreads_pid_body_append; [done|done|]. destruct Hk; [by right|by left].
    - assert (Z.of_nat j `mod` n = 0 ∧ j ≠ 0%nat) as [Hmod Hj0].
      { split; [|intros ->; apply Hk; by right].
        destruct (decide (Z.of_nat j `mod` n = 0)); [done|]. exfalso. apply Hk. by left. }
      rewrite loop_body_flush by done.
      pose proof (dispatch_step dwl_multiple self zoom h_tiles v_tiles cropped full
                    panorama_output st1 w1) as Hstep.
      destruct (dispatch _ _ _ _ _ _ _ _ st1 w1) as [[st2|e] w2]; [|done].
      destruct Hstep as [_ [[_ [e He]]|[HD' Hst]]]; [done|].
      intros w0. rewrite seq_S, for_each_snoc, HI. simpl.
      rewrite nthreads_pid_body_flush; [by rewrite HD', Hst|done|].
      intros [?|?]; [done|]. apply Hk. by left. }
  specialize (Hrule Hbody). rewrite HD, Ht in Hrule. specialize (Hrule (λ w0, eq_refl)).
  by destruct (for_each body _ st w) as [[st'|e] w'].
Qed.

(** The counters and the calls: [errors] is [nthreads] times the number of
    failed batches, [img_num] is [nthreads] times the number of the others. *)
Lemma loop_counters st w :
  errors st = n * Z.of_nat (sleeps w) →
  img_num st = n * (Z.of_nat (length (dispatched w)) - Z.of_nat (sleeps w)) →
  match for_each body (seq 0 (length panoids_rest)) st w with
  | (Ok st', w') =>
      errors st' = n * Z.of_nat (sleeps w')
      ∧ img_num st' = n * (Z.of_nat (length (dispatched w')) - Z.of_nat (sleeps w'))
  | (Raise _, _) => True
  end.
Proof.
  intros He Hi.
  pose proof (for_each_rule body
    (λ _ st w, errors st = n * Z.of_nat (sleeps w)
               ∧ img_num st
                 = n * (Z.of_nat (length (dispatched w)) - Z.of_nat (sleeps w)))
    (λ _, True) (seq 0 (length panoids_rest)) 0%nat st w) as Hrule.
  destruct (for_each body _ st w) as [[st'|e] w'] eqn:Hrun; [|done].
  apply Hrule; [|done]. clear Hrule Hrun He Hi.
  intros j i st1 w1 _ [He Hi].
  destruct (decide (n = 0)) as [Hn0|Hn].
  { unfold loop_body, py_mod. by rewrite Hn0. }
  destruct (decide (Z.of_nat i `mod` n ≠ 0 ∨ i = 0%nat)) as [Hk|Hk].
  { by rewrite loop_body_append by done. }
  assert (Z.of_nat i `mod` n = 0 ∧ i ≠ 0%nat) as [Hmod Hi0].
  { split; [|intros ->; apply Hk; by right].
    destruct (decide (Z.of_nat i `mod` n = 0)); [done|]. exfalso. apply Hk. by left. }
  rewrite loop_body_flush by done.
  destruct (dispatch_cases dwl_multiple self zoom h_tiles v_tiles cropped full
              panorama_output st1 w1)
    as [[-> _]|(uas & ws & r & f1 & _ & _ & _ & _ & _ & _ & Hr)]; [done|].
  cbv zeta in Hr. destruct r as [[]|e].
  - rewrite Hr. simpl. unfold dispatched, sleeps. simpl.
    rewrite omap_app, filter_app, !length_app. simpl.
    unfold dispatched, sleeps in He, Hi. split; lia.
  - destruct Hr as (tenths & ->).
    set (w2 := World _ _ _).
    assert (errors st1 + n = n * Z.of_nat (sleeps w2)
            ∧ img_num st1
              = n * (Z.of_nat (length (dispatched w2)) - Z.of_nat (sleeps w2))) as [He2 Hi2].
    { unfold dispatched, sleeps, w2. simpl.
      rewrite omap_app, filter_app, !length_app. simpl.
      unfold dispatched, sleeps in He, Hi. split; lia. }
    destruct (String.eqb (log_path self) ""); [done|].
    pose proof (log_write_calls self (task_pids st1) w2) as Hlw.
    destruct (_log_write self (task_pids st1) w2) as [[[]|e'] w3]; [|done].
    simpl in *. unfold dispatched, sleeps in *. by rewrite Hlw.
Qed.

End RunFacts.

Lemma for_each_app {A St} (body : A → St → M St) (l1 l2 : list A) st w :
  for_each body (l1 ++ l2) st w
  = match for_each body l1 st w with
    | (Ok st1, w1) => for_each body l2 st1 w1
    | (Raise e, w1) => (Raise e, w1)
    end.
Proof.
  revert st w. induction l1 as [|y l1 IH]; intros st w; simpl; [done|].
  unfold bind. destruct (body y st w) as [[st1|e] w1]; [apply IH|done].
Qed.

(** A run of [download_gsv] that ends normally has handed to the tool
    exactly the batches that [_get_nthreads_pid] returns for the pending
    identifiers, in the same order. *)
Theorem dispatched_batches_are_get_nthreads_pid
    (dwl : downloader_tool) (self : StreetViewDownloader)
    (zoom h_tiles v_tiles : Z) (cropped full : bool)
    (f : filesystem) (rs : list nat) (st : locals) (w' : world) :
  download_gsv dwl self zoom h_tiles v_tiles cropped full (World f rs [])
  = (Ok st, w') →
  ∃ rest w1,
    pending self (World f rs []) = (Ok rest, w1)
    ∧ ∀ w0, _get_nthreads_pid self rest w0 = (Ok (dispatched w'), w0).
Proof.
  intros (w2 & Hphase & Hcalls)%download_gsv_ok.
  pose proof (download_phase_pending dwl self zoom h_tiles v_tiles cropped full
                (World f rs [])) as Hpend.
  destruct (pending self (World f rs [])) as [[rest|e] w1];
    destruct Hpend as [Hc Heq]; [|congruence].
  exists rest, w1. split; [done|]. intros w0.
  pose proof (loop_tracks_get_nthreads_pid dwl self zoom h_tiles v_tiles cropped full
                (os_path_join (dir_output self) "panorama") rest (Locals [] 0 0) w1)
    as Htrack.
  rewrite <- Heq, Hphase in Htrack.
  assert (dispatched w1 = []) as HD by (unfold dispatched; by rewrite Hc).
  specialize (Htrack HD eq_refl w0).
  unfold _get_nthreads_pid. rewrite (bind_ok _ _ _ _ _ Htrack).
  unfold dispatched. by rewrite Hcalls.
Qed.

Lemma dispatched_batches_are_get_nthreads_pid_witness :
  download_gsv (TileFetcher.dwl_multiple all_up) (sv [] "" 2) 2 4 2 false true
    (World (disk abcde) [] [])
  = (Ok (Locals [] 0 4),
     (download_gsv (TileFetcher.dwl_multiple all_up) (sv [] "" 2) 2 4 2 false true
        (World (disk abcde) [] [])).2)
  ∧ ∃ rest w1,
      pending (sv [] "" 2) (World (disk abcde) [] []) = (Ok rest, w1)
      ∧ ∀ w0, _get_nthreads_pid (sv [] "" 2) rest w0
              = (Ok (dispatched
                       (download_gsv (TileFetcher.dwl_multiple all_up) (sv [] "" 2)
                          2 4 2 false true (World (disk abcde) [] [])).2), w0).
Proof.
  split; [vm_compute; reflexivity|].
  apply (dispatched_batches_are_get_nthreads_pid (TileFetcher.dwl_multiple all_up)
           (sv [] "" 2) 2 4 2 false true (disk abcde) [] (Locals [] 0 4)).
  vm_compute; reflexivity.
Defined.

(** With a positive batch size and no more pending identifiers than one
    batch holds, [download_gsv] hands nothing to the tool: the loop only
    collects the identifiers, and the run goes on to the projection phase in
    the world in which the pending identifiers were computed. *)
Theorem few_pending_nothing_downloaded
    (dwl : downloader_tool) (self : StreetViewDownloader)
    (zoom h_tiles v_tiles : Z) (cropped full : bool)
    (w w1 : world) (rest : list string) :
  0 < nthreads self →
  pending self w = (Ok rest, w1) →
  Z.of_nat (length rest) ≤ nthreads self →
  download_gsv dwl self zoom h_tiles v_tiles cropped full w
  = (let* _ := projection_phase self in ret (Locals rest 0 0)) w1.
Proof.
  intros Hn Hpend Hle.
  pose proof (download_phase_pending dwl self zoom h_tiles v_tiles cropped full w)
    as Hphase.
  rewrite Hpend in Hphase. destruct Hphase as [_ Hphase].
  rewrite loop_prefix_appends in Hphase by (done || lia).
  rewrite firstn_all in Hphase.
  unfold download_gsv. by rewrite (bind_ok _ _ _ _ _ Hphase).
Qed.

Lemma few_pending_nothing_downloaded_witness :
  0 < nthreads (sv [] "" 5)
  ∧ pending (sv [] "" 5) (world0 abcde)
    = (Ok abcde, World (<["out/panorama" := Dir]> (disk abcde)) [] [])
  ∧ Z.of_nat (length abcde) ≤ nthreads (sv [] "" 5)
  ∧ download_gsv (TileFetcher.dwl_multiple all_up) (sv [] "" 5) 2 4 2 false true
      (world0 abcde)
    = (let* _ := projection_phase (sv [] "" 5) in ret (Locals abcde 0 0))
        (World (<["out/panorama" := Dir]> (disk abcde)) [] []).
Proof.
  split; [reflexivity|]. split; [vm_compute; reflexivity|]. split; [discriminate|].
  apply (few_pending_nothing_downloaded (TileFetcher.dwl_multiple all_up)
           (sv [] "" 5) 2 4 2 false true (world0 abcde)
           (World (<["out/panorama" := Dir]> (disk abcde)) [] []) abcde);
    [reflexivity | vm_compute; reflexivity | discriminate].
Defined.

(** At the normal end of a run, [errors] is [nthreads] times the number of
    failed batches (each is followed by one sleep) and the two counters add
    up to [nthreads] times the number of batches handed to the tool. *)
Theorem counters_count_batches
    (dwl : downloader_tool) (self : StreetViewDownloader)
    (zoom h_tiles v_tiles : Z) (cropped full : bool)
    (f : filesystem) (rs : list nat) (st : locals) (w' : world) :
  download_gsv dwl self zoom h_tiles v_tiles cropped full (World f rs [])
  = (Ok st, w') →
  errors st = nthreads self * Z.of_nat (sleeps w')
  ∧ errors st + img_num st = nthreads self * Z.of_nat (length (dispatched w')).
Proof.
  intros (w2 & Hphase & Hcalls)%download_gsv_ok.
  pose proof (download_phase_pending dwl self zoom h_tiles v_tiles cropped full
                (World f rs [])) as Hpend.
  destruct (pending self (World f rs [])) as [[rest|e] w1];
    destruct Hpend as [Hc Heq]; [|congruence].
  pose proof (loop_counters dwl self zoom h_tiles v_tiles cropped full
                (os_path_join (dir_output self) "panorama") rest (Locals [] 0 0) w1)
    as Hcount.
  rewrite <- Heq, Hphase in Hcount.
  unfold sleeps, dispatched in *. rewrite Hc in Hcount. simpl in Hcount.
  rewrite Hcalls. destruct Hcount as [He Hi]; lia.
Qed.

Lemma counters_count_batches_witness :
  download_gsv (TileFetcher.dwl_multiple all_down) (sv [] "" 2) 2 4 2 false true
    (World (disk abcde) [] [])
  = (Ok (Locals [] 4 0),
     (download_gsv (TileFetcher.dwl_multiple all_down) (sv [] "" 2) 2 4 2 false true
        (World (disk abcde) [] [])).2)
  ∧ errors (Locals [] 4 0)
    = nthreads (sv [] "" 2)
      * Z.of_nat (sleeps (download_gsv (TileFetcher.dwl_multiple all_down)
                            (sv [] "" 2) 2 4 2 false true
                            (World (disk abcde) [] [])).2)
  ∧ errors (Locals [] 4 0) + img_num (Locals [] 4 0)
    = nthreads (sv [] "" 2)
      * Z.of_nat (length (dispatched
                            (download_gsv (TileFetcher.dwl_multiple all_down)
                               (sv [] "" 2) 2 4 2 false true
                               (World (disk abcde) [] [])).2)).
Proof.
  split; [vm_compute; reflexivity|].
  apply (counters_count_batches (TileFetcher.dwl_multiple all_down)
           (sv [] "" 2) 2 4 2 false true (disk abcde) [] (Locals [] 4 0)).
  vm_compute; reflexivity.
Defined.

(** With fewer user agents than [nthreads] and more than [nthreads] pending
    identifiers, [random.sample] raises at the first flush: the run ends in
    [ValueError] before anything is handed to the tool. *)
Theorem small_pool_raises
    (dwl : downloader_tool) (self : StreetViewDownloader)
    (zoom h_tiles v_tiles : Z) (cropped full : bool)
    (w w1 : world) (rest : list string) :
  Z.of_nat (length (user_agent self)) < nthreads self →
  pending self w = (Ok rest, w1) →
  nthreads self < Z.of_nat (length rest) →
  download_gsv dwl self zoom h_tiles v_tiles cropped full w
  = (Raise (ValueError "Sample larger than population or is negative"), w1).
Proof.
  intros Hpool Hpend Hlen.
  assert (0 < nthreads self) as Hn by lia.
  pose proof (download_phase_pending dwl self zoom h_tiles v_tiles cropped full w)
    as Hphase.
  rewrite Hpend in Hphase. destruct Hphase as [_ Hphase].
  unfold download_gsv. apply bind_raise. rewrite Hphase.
  set (k := Z.to_nat (nthreads self)).
  replace (length rest) with (k + S (length rest - S k))%nat by lia.
  rewrite seq_app, for_each_app, loop_prefix_appends by lia.
  simpl. apply bind_raise.
  rewrite loop_body_flush; [|lia| |lia].
  - destruct (dispatch_cases dwl self zoom h_tiles v_tiles cropped full
                (os_path_join (dir_output self) "panorama")
                (Locals (take k rest) 0 0) w1)
      as [[-> _]|(uas & ? & ? & ? & _ & _ & _ & Hsub%submseteq_length & ? & _)];
      [done|lia].
  - unfold k. rewrite Z2Nat.id by lia. apply Z_mod_same_full.
Qed.

Lemma small_pool_raises_witness :
  Z.of_nat (length (user_agent (sv [] "" 4))) < nthreads (sv [] "" 4)
  ∧ pending (sv [] "" 4) (world0 abcde)
    = (Ok abcde, World (<["out/panorama" := Dir]> (disk abcde)) [] [])
  ∧ nthreads (sv [] "" 4) < Z.of_nat (length abcde)
  ∧ download_gsv (TileFetcher.dwl_multiple all_up) (sv [] "" 4) 2 4 2 false true
      (world0 abcde)
    = (Raise (ValueError "Sample larger than population or is negative"),
       World (<["out/panorama" := Dir]> (disk abcde)) [] []).
Proof.
  split; [reflexivity|]. split; [vm_compute; reflexivity|]. split; [reflexivity|].
  apply (small_pool_raises (TileFetcher.dwl_multiple all_up) (sv [] "" 4)
           2 4 2 false true (world0 abcde)
           (World (<["out/panorama" := Dir]> (disk abcde)) [] []) abcde);
    [reflexivity | vm_compute; reflexivity | reflexivity].
Defined.

(** With [nthreads = 0] and at least one pending identifier, the first
    iteration of the loop raises [ZeroDivisionError]: the run ends there,
    before anything is handed to the tool. *)
Theorem zero_nthreads_raises
    (dwl : downloader_tool) (self : StreetViewDownloader)
    (zoom h_tiles v_tiles : Z) (cropped full : bool)
    (w w1 : world) (rest : list string) :
  nthreads self = 0 →
  pending self w = (Ok rest, w1) →
  rest ≠ [] →
  download_gsv dwl self zoom h_tiles v_tiles cropped full w
  = (Raise ZeroDivisionError, w1).
Proof.
  intros Hn Hpend Hrest.
  pose proof (download_phase_pending dwl self zoom h_tiles v_tiles cropped full w)
    as Hphase.
  rewrite Hpend in Hphase. destruct Hphase as [_ Hphase].
  unfold download_gsv. apply bind_raise. rewrite Hphase.
  destruct rest as [|pid rest]; [done|]. simpl. apply bind_raise.
  unfold loop_body, py_mod. by rewrite Hn.
Qed.

Lemma zero_nthreads_raises_witness :
  nthreads (sv [] "" 0) = 0
  ∧ pending (sv [] "" 0) (world0 abcde)
    = (Ok abcde, World (<["out/panorama" := Dir]> (disk abcde)) [] [])
  ∧ abcde ≠ []
  ∧ download_gsv (TileFetcher.dwl_multiple all_up) (sv [] "" 0) 2 4 2 false true
      (world0 abcde)
    = (Raise ZeroDivisionError, World (<["out/panorama" := Dir]> (disk abcde)) [] []).
Proof.
  split; [reflexivity|]. split; [vm_compute; reflexivity|]. split; [discriminate|].
  apply (zero_nthreads_raises (TileFetcher.dwl_multiple all_up) (sv [] "" 0)
           2 4 2 false true (world0 abcde)
           (World (<["out/panorama" := Dir]> (disk abcde)) [] []) abcde);
    [reflexivity | vm_compute; reflexivity | discriminate].
Defined.

(** ** [standardize_column_names] *)

Lemma canonical_name_idem (c : string) :
  canonical_name (canonical_name c) = canonical_name c.
Proof.
  unfold canonical_name.
  destruct (bool_decide (c ∈ longitude_variants)) eqn:Hlon; [reflexivity|].
  destruct (bool_decide (c ∈ latitude_variants)) eqn:Hlat; [reflexivity|].
  by rewrite Hlon, Hlat.
Qed.

(** One step of the renaming loop rewrites the label [col], wherever it
    stands, to its final form. *)
Lemma rename_step (col : string) (cols : list string) :
  (if bool_decide (col ∈ longitude_variants) then df_rename col "longitude" cols
   else if bool_decide (col ∈ latitude_variants) then df_rename col "latitude" cols
   else cols)
  = map (λ c, if String.eqb c col then canonical_name col else c) cols.
Proof.
  unfold canonical_name, df_rename.
  destruct (bool_decide (col ∈ longitude_variants)); [done|].
  destruct (bool_decide (col ∈ latitude_variants)); [done|].
  induction cols as [|c cols IH]; [done|]. simpl. rewrite <- IH.
  by destruct (String.eqb_spec c col) as [->|].
Qed.

Lemma rename_loop (todo : list string) : ∀ cur : list string,
  foldl (λ cols col,
           if bool_decide (col ∈ longitude_variants) then df_rename col "longitude" cols
           else if bool_decide (col ∈ latitude_variants) then df_rename col "latitude" cols
           else cols) cur todo
  = map (λ c, if bool_decide (c ∈ todo) then canonical_name c else c) cur.
Proof.
  induction todo as [|col todo IH]; intros cur; simpl.
  - induction cur as [|c cur IHc]; [done|]. simpl. by rewrite <- IHc.
  - rewrite rename_step, IH, map_map. apply map_ext. intros c.
    destruct (String.eqb_spec c col) as [->|Hne].
    + rewrite (bool_decide_eq_true_2 (col ∈ col :: todo)) by by left.
      destruct (bool_decide (canonical_name col ∈ todo)); [|done].
      apply canonical_name_idem.
    + destruct (bool_decide (c ∈ todo)) eqn:Hin.
      * apply bool_decide_eq_true in Hin.
        by rewrite (bool_decide_eq_true_2 (c ∈ col :: todo)) by by right.
      * apply bool_decide_eq_false in Hin.
        rewrite (bool_decide_eq_false_2 (c ∈ col :: todo)); [done|].
        by intros [?|?]%elem_of_cons.
Qed.

Lemma rename_lowered (columns : list string) :
  standardize_column_names columns
  = map (λ c, canonical_name (PyStr.lower c)) columns.
Proof.
  unfold standardize_column_names. rewrite rename_loop, map_map.
  apply map_ext_in. intros c Hc.
  rewrite bool_decide_eq_true_2; [done|].
  apply list_elem_of_In, in_map, Hc.
Qed.

(** The loop of in-place renames comes to a label-by-label rewrite: each
    column gets the canonical form of its lower-case label, whatever other
    columns there are; their number and order do not change. *)
Theorem standardize_column_names_pointwise (columns : list string) :
  length (standardize_column_names columns) = length columns
  ∧ ∀ (i : nat) (c : string),
      columns !! i = Some c →
      standardize_column_names columns !! i
      = Some (if bool_decide (PyStr.lower c ∈ longitude_variants) then "longitude"
              else if bool_decide (PyStr.lower c ∈ latitude_variants) then "latitude"
              else PyStr.lower c).
Proof.
  rewrite rename_lowered. split; [apply length_map|].
  intros i c Hc. by rewrite list_lookup_fmap, Hc.
Qed.

Lemma lower_char_idem (c : ascii) :
  PyStr.lower_char (PyStr.lower_char c) = PyStr.lower_char c.
Proof. destruct c as [[] [] [] [] [] [] [] []]; reflexivity. Qed.

Lemma lower_idem (s : string) : PyStr.lower (PyStr.lower s) = PyStr.lower s.
Proof. induction s as [|c s IH]; simpl; [done|]. by rewrite lower_char_idem, IH. Qed.

Lemma lower_canonical_name (c : string) :
  PyStr.lower (canonical_name (PyStr.lower c)) = canonical_name (PyStr.lower c).
Proof.
  unfold canonical_name.
  destruct (bool_decide (PyStr.lower c ∈ longitude_variants)); [reflexivity|].
  destruct (bool_decide (PyStr.lower c ∈ latitude_variants)); [reflexivity|].
  apply lower_idem.
Qed.

(** Standardizing the column labels a second time changes nothing. *)
Theorem standardize_column_names_idempotent (columns : list string) :
  standardize_column_names (standardize_column_names columns)
  = standardize_column_names columns.
Proof.
  rewrite !rename_lowered, map_map. apply map_ext. intros c.
  by rewrite lower_canonical_name, canonical_name_idem.
Qed.

Example standardize_column_names_sample :
  standardize_column_names ["ID"; "Lat"; "LNG"; "x"; "Name"]
  = ["id"; "latitude"; "longitude"; "longitude"; "name"].
Proof. reflexivity. Qed.

(** ** [split] *)

Lemma split_nonempty (sep : ascii) (s : string) : PyStr.split sep s ≠ [].
Proof.
  destruct s as [|c s]; simpl; [done|].
  destruct (Ascii.eqb c sep); [done|]. by destruct (PyStr.split sep s).
Qed.

(** The first piece of [split] is what [split_0] returns. *)
Lemma split_head (sep : ascii) (s : string) :
  PyStr.split sep s !! 0%nat = Some (PyStr.split_0 sep s).
Proof.
  induction s as [|c s IH]; simpl; [done|].
  destruct (Ascii.eqb c sep); [done|].
  destruct (PyStr.split sep s) as [|h t]; [done|].
  simpl in *. by simplify_eq.
Qed.

Lemma split_no_sep (sep : ascii) (s : string) :
  all_chars (λ c, negb (Ascii.eqb c sep)) s = true → PyStr.split sep s = [s].
Proof.
  induction s as [|c s IH]; simpl; [done|]. intros [Hc Hs]%andb_true_iff.
  apply negb_true_iff in Hc. by rewrite Hc, IH.
Qed.

Lemma split_app (sep : ascii) (y s : string) :
  all_chars (λ c, negb (Ascii.eqb c sep)) y = true →
  PyStr.split sep (y +:+ String sep s) = y :: PyStr.split sep s.
Proof.
  induction y as [|c y IH]; intros Hy.
  - change ("" +:+ String sep s) with (String sep s). simpl.
    by rewrite Ascii.eqb_refl.
  - simpl in Hy. apply andb_true_iff in Hy as [Hc Hy]. apply negb_true_iff in Hc.
    rewrite append_cons. simpl. by rewrite Hc, IH.
Qed.

(** There is a second piece exactly when the separator occurs. *)
Lemma split_second (sep : ascii) (s : string) :
  PyStr.split sep s !! 1%nat = None
  ↔ all_chars (λ c, negb (Ascii.eqb c sep)) s = true.
Proof.
  split; [|by intros ->%split_no_sep].
  induction s as [|c s IH]; simpl; [done|].
  destruct (Ascii.eqb c sep) eqn:Hc.
  - pose proof (split_nonempty sep s). by destruct (PyStr.split sep s).
  - pose proof (split_nonempty sep s).
    destruct (PyStr.split sep s) as [|h t]; [done|]. simpl in *. auto.
Qed.

(** ** [get_year_month] *)

Section MetadataFacts.

Variable requests_get_json : string → metadata_exn + gmap string json.
Variable self : StreetViewDownloader.
Variable pid : string.

#[local] Abbreviation url :=
  ("https://maps.googleapis.com/maps/api/streetview/metadata?pano=" +:+ pid
     +:+ "&key=" +:+ default "None" (gsv_api_key self)).

(** For an answer with status OK whose date starts with a year, a dash and
    a month, [get_year_month] returns that year and that month, as text;
    what follows the month after a second dash is ignored. *)
Theorem get_year_month_parses (response : gmap string json)
    (year month tail : string) :
  requests_get_json url = inr response →
  response !! "status" = Some (JString "OK") →
  response !! "date" = Some (JString (year +:+ "-" +:+ month +:+ tail)) →
  all_chars not_dash year = true →
  all_chars not_dash month = true →
  tail = "" ∨ (∃ t, tail = "-" +:+ t) →
  get_year_month requests_get_json self pid = inr (Some year, Some month).
Proof.
  intros Hget Hstatus Hdate Hy Hm Htail. unfold get_year_month.
  rewrite Hget, Hstatus, Hdate. simpl.
  change ("-" +:+ month +:+ tail) with (String "-" (month +:+ tail)).
  rewrite (split_app "-" year _ Hy). simpl.
  destruct Htail as [->|[t ->]].
  - by rewrite append_empty_r, (split_no_sep "-" month Hm).
  - change ("-" +:+ t) with (String "-" t). by rewrite (split_app "-" month _ Hm).
Qed.

(** [get_year_month] returns a year and a month together or neither; it
    returns them only for an answer with status OK whose date is a string
    with a dash in it, and the year is then the text before the first dash. *)
Theorem get_year_month_both_or_neither (year month : option string) :
  get_year_month requests_get_json self pid = inr (year, month) →
  (year = None ↔ month = None)
  ∧ (month ≠ None →
     ∃ response date,
       requests_get_json url = inr response
       ∧ response !! "status" = Some (JString "OK")
       ∧ response !! "date" = Some (JString date)
       ∧ all_chars not_dash date = false
       ∧ year = Some (PyStr.split_0 "-" date)).
Proof.
  unfold get_year_month.
  destruct (requests_get_json url) as [e|response] eqn:Hget; [done|].
  destruct (response !! "status") as [[s|]|] eqn:Hstatus;
    [|intros; by simplify_eq..].
  destruct (String.eqb_spec s "OK") as [->|Hne]; [|intros; by simplify_eq].
  destruct (response !! "date") as [[date|]|] eqn:Hdate;
    [|intros; by simplify_eq..].
  rewrite split_head.
  destruct (PyStr.split "-" date !! 1%nat) as [m|] eqn:Hsecond;
    [|intros; by simplify_eq].
  intros ?. simplify_eq. split; [done|]. intros _.
  exists response, date. split_and!; [done..| |done].
  destruct (all_chars not_dash date) eqn:Hall; [|done].
  apply split_second in Hall. congruence.
Qed.

End MetadataFacts.

Lemma get_year_month_parses_witness :
  api_2019_05
    ("https://maps.googleapis.com/maps/api/streetview/metadata?pano=" +:+ "a"
       +:+ "&key=" +:+ default "None" (gsv_api_key (sv [] "" 2)))
  = inr answer_2019_05
  ∧ answer_2019_05 !! "status" = Some (JString "OK")
  ∧ answer_2019_05 !! "date" = Some (JString ("2019" +:+ "-" +:+ "05" +:+ ""))
  ∧ all_chars not_dash "2019" = true
  ∧ all_chars not_dash "05" = true
  ∧ ("" = "" ∨ (∃ t, "" = "-" +:+ t))
  ∧ get_year_month api_2019_05 (sv [] "" 2) "a" = inr (Some "2019", Some "05").
Proof.
  split; [reflexivity|]. split; [reflexivity|]. split; [reflexivity|].
  split; [reflexivity|]. split; [reflexivity|]. split; [left; reflexivity|].
  apply (get_year_month_parses api_2019_05 (sv [] "" 2) "a" answer_2019_05
           "2019" "05" "");
    [reflexivity | reflexivity | reflexivity | reflexivity | reflexivity
    | left; reflexivity].
Defined.

Lemma get_year_month_both_or_neither_witness :
  get_year_month api_2019_05 (sv [] "" 2) "a" = inr (Some "2019", Some "05")
  ∧ ((Some "2019" = None ↔ Some "05" = None)
     ∧ (Some "05" ≠ None →
        ∃ response date,
          api_2019_05
            ("https://maps.googleapis.com/maps/api/streetview/metadata?pano="
               +:+ "a" +:+ "&key=" +:+ default "None" (gsv_api_key (sv [] "" 2)))
          = inr response
          ∧ response !! "status" = Some (JString "OK")
          ∧ response !! "date" = Some (JString date)
          ∧ all_chars not_dash date = false
          ∧ Some "2019" = Some (PyStr.split_0 "-" date))).
Proof.
  split; [reflexivity|].
  apply (get_year_month_both_or_neither api_2019_05 (sv [] "" 2) "a"
           (Some "2019") (Some "05")).
  reflexivity.
Defined.

(** ** Lines and white space *)

Lemma rstrip_snoc_space (s : string) (c : ascii) :
  PyStr.isspace c = true → PyStr.rstrip (s +:+ String c "") = PyStr.rstrip s.
Proof.
  intros Hc. induction s as [|d s IH].
  - change ("" +:+ String c "") with (String c ""). simpl. by rewrite Hc.
  - rewrite append_cons. simpl. by rewrite IH.
Qed.

(** ** [_get_ua] *)

Lemma readlines_no_newline (s : string) :
  all_chars not_newline s = true →
  PyStr.readlines s = if String.eqb s "" then [] else [s].
Proof.
  induction s as [|c s IH]; [done|]. simpl.
  intros [Hc Hs]%andb_true_iff. apply negb_true_iff in Hc.
  rewrite Hc, (IH Hs). by destruct s.
Qed.

Lemma readlines_line (body text : string) :
  all_chars not_newline body = true →
  PyStr.readlines (body +:+ newline +:+ text)
  = (body +:+ newline) :: PyStr.readlines text.
Proof.
  induction body as [|c body IH]; intros Hbody.
  - reflexivity.
  - simpl in Hbody. apply andb_true_iff in Hbody as [Hc Hbody].
    apply negb_true_iff in Hc. rewrite !append_cons. simpl.
    by rewrite Hc, (IH Hbody).
Qed.

Lemma text_of_lines_cons (body : string) (bodies : list string) (last : string) :
  text_of_lines (body :: bodies) last
  = body +:+ newline +:+ text_of_lines bodies last.
Proof. unfold text_of_lines. simpl. by rewrite !append_assoc. Qed.

Lemma readlines_text_of_lines (bodies : list string) (last : string) :
  Forall (λ body, all_chars not_newline body = true) bodies →
  all_chars not_newline last = true →
  PyStr.readlines (text_of_lines bodies last)
  = (map (λ body, body +:+ newline) bodies
     ++ if String.eqb last "" then [] else [last])%list.
Proof.
  intros Hbodies Hlast. induction Hbodies as [|body bodies Hbody _ IH].
  - by apply readlines_no_newline.
  - by rewrite text_of_lines_cons, readlines_line, IH.
Qed.

(** Every text is made of lines in this way. *)
Lemma text_has_lines (content : string) :
  ∃ bodies last,
    content = text_of_lines bodies last
    ∧ Forall (λ body, all_chars not_newline body = true) bodies
    ∧ all_chars not_newline last = true.
Proof.
  induction content as [|c content (bodies & last & -> & Hbodies & Hlast)].
  - by exists [], "".
  - destruct (Ascii.eqb c (ascii_of_nat 10)) eqn:Hc.
    + apply Ascii.eqb_eq in Hc. subst c.
      exists ("" :: bodies), last. split_and!; [|by constructor|done].
      by rewrite text_of_lines_cons.
    + destruct bodies as [|body bodies].
      * exists [], (String c last). split_and!; [done..|].
        simpl. unfold not_newline at 1. by rewrite Hc.
      * exists (String c body :: bodies), last.
        apply Forall_cons in Hbodies as [Hbody Hbodies].
        split_and!; [|constructor; [|done]|done].
        -- by rewrite !text_of_lines_cons.
        -- simpl. unfold not_newline at 1. by rewrite Hc.
Qed.

(** [_get_ua] returns exactly one entry per line of the user agent file, in
    the order of the lines: for a file made of the lines [bodies], each
    ended by a newline, and a last line [last] without one, the entries are
    the lines of [bodies] without the white space around them, blank lines
    included, followed by that of [last] unless [last] is empty. *)
Theorem get_ua_entries (user_agent_file : string) (bodies : list string)
    (last : string) (w : world) :
  Forall (λ body, all_chars not_newline body = true) bodies →
  all_chars not_newline last = true →
  fs w !! user_agent_file = Some (File (Text (text_of_lines bodies last))) →
  _get_ua user_agent_file w
  = (Ok (map PyStr.strip bodies
         ++ if String.eqb last "" then [] else [PyStr.strip last])%list, w).
Proof.
  intros Hbodies Hlast Hfile. unfold _get_ua.
  rewrite Hfile, readlines_text_of_lines by done.
  do 2 f_equal. rewrite map_app, map_map. f_equal.
  - apply map_ext. intros body. unfold PyStr.strip, newline.
    by rewrite rstrip_snoc_space.
  - by destruct (String.eqb last "").
Qed.

Lemma get_ua_entries_witness :
  Forall (λ body, all_chars not_newline body = true) ["  Mozilla/5.0 "; ""]
  ∧ all_chars not_newline "Opera/9.8" = true
  ∧ fs (World (<["UserAgent.csv" :=
                   File (Text (text_of_lines ["  Mozilla/5.0 "; ""] "Opera/9.8"))]> ∅)
          [] []) !! "UserAgent.csv"
    = Some (File (Text (text_of_lines ["  Mozilla/5.0 "; ""] "Opera/9.8")))
  ∧ _get_ua "UserAgent.csv"
      (World (<["UserAgent.csv" :=
                  File (Text (text_of_lines ["  Mozilla/5.0 "; ""] "Opera/9.8"))]> ∅)
         [] [])
    = (Ok (map PyStr.strip ["  Mozilla/5.0 "; ""]
           ++ if String.eqb "Opera/9.8" "" then [] else [PyStr.strip "Opera/9.8"])%list,
       World (<["UserAgent.csv" :=
                  File (Text (text_of_lines ["  Mozilla/5.0 "; ""] "Opera/9.8"))]> ∅)
         [] []).
Proof.
  assert (Forall (λ body, all_chars not_newline body = true) ["  Mozilla/5.0 "; ""])
    as Hbodies by (repeat constructor).
  split; [exact Hbodies|]. split; [reflexivity|]. split; [reflexivity|].
  apply (get_ua_entries "UserAgent.csv" ["  Mozilla/5.0 "; ""] "Opera/9.8");
    [exact Hbodies|reflexivity|reflexivity].
Defined.

Example get_ua_sample :
  (_get_ua "UserAgent.csv"
     (World (<["UserAgent.csv" :=
                 File (Text ("  Mozilla/5.0 " +:+ newline +:+ newline +:+ "Opera/9.8"))]> ∅)
        [] [])).1
  = Ok ["Mozilla/5.0"; ""; "Opera/9.8"].
Proof. reflexivity. Qed.

(** ** Fisheye outputs *)

(** For a panorama file [<id>.jpg] whose identifier does not contain [jpg],
    the fisheye branch of [run] writes exactly one image, the fisheye view of
    the panorama, to [<id>.png] in the output directory of the style, and
    changes nothing else. *)
Theorem fisheye_output_clean (dir_input dir_output id : string) (show_size : Z)
    (pano : image) (w : world) :
  id ≠ "" →
  PyStr.occurs "jpg" id = false →
  fs w !! os_path_join dir_input (id +:+ ".jpg") = Some (File (Img pano)) →
  let '(path_input, path_output, show_size) :=
    process_image dir_input dir_output (id +:+ ".jpg") show_size in
  run "fisheye" path_input path_output show_size w
  = (Ok tt,
     set_fs (insert (os_path_join dir_output id +:+ ".png")
               (File (Img (Fisheye (Some pano))))) w).
Proof.
  intros Hid Hjpg Hpano. unfold process_image.
  rewrite replace_jpg_clean, (os_path_join_app dir_output) by done.
  unfold run, bind, cv2_imread. by rewrite Hpano.
Qed.

Lemma fisheye_output_clean_witness :
  "a" ≠ ""
  ∧ PyStr.occurs "jpg" "a" = false
  ∧ fs (World disk_rerun [] []) !! os_path_join "out/panorama" ("a" +:+ ".jpg")
    = Some (File (Img (Canvas 1 1 [Tile "a" 2 0 0] false)))
  ∧ let '(path_input, path_output, show_size) :=
      process_image "out/panorama" "out/fisheye" ("a" +:+ ".jpg") 100 in
    run "fisheye" path_input path_output show_size (World disk_rerun [] [])
    = (Ok tt,
       set_fs (insert (os_path_join "out/fisheye" "a" +:+ ".png")
                 (File (Img (Fisheye (Some (Canvas 1 1 [Tile "a" 2 0 0] false)))))) (World disk_rerun [] [])).
Proof.
  split; [discriminate|]. split; [reflexivity|]. split; [reflexivity|].
  apply (fisheye_output_clean "out/panorama" "out/fisheye" "a" 100 (Canvas 1 1 [Tile "a" 2 0 0] false)
           (World disk_rerun [] [])); [discriminate|reflexivity|reflexivity].
Defined.

Lemma perspective_path_clean_witness :
  "a" ≠ ""
  ∧ PyStr.occurs "jpg" "a" = false
  ∧ PyStr.occurs ".png" (os_path_join "out/perspective" "a") = false
  ∧ let '(_, path_output, _) :=
      process_image "out/panorama" "out/perspective" ("a" +:+ ".jpg") 100 in
    PyStr.replace ".png" "_Direction_0_FOV_90_aspect_9--16_raw.png" path_output
    = os_path_join "out/perspective" "a"
        +:+ "_Direction_0_FOV_90_aspect_9--16_raw.png".
Proof.
  split; [discriminate|]. split; [reflexivity|]. split; [reflexivity|].
  apply (perspective_path_clean "out/panorama" "out/perspective" "a"
           "_Direction_0_FOV_90_aspect_9--16_raw.png" 100);
    [discriminate|reflexivity|reflexivity].
Defined.

Lemma run_batch_shape_witness :
  0 < nthreads (sv [] "" 2)
  ∧ batch_shape (nthreads (sv [] "" 2))
      (dispatched (download_gsv (TileFetcher.dwl_multiple all_up) (sv [] "" 2)
                     2 4 2 false true (World (disk abcde) [] [])).2).
Proof.
  split; [reflexivity|].
  apply (run_batch_shape (TileFetcher.dwl_multiple all_up) (sv [] "" 2)
           2 4 2 false true (disk abcde) []). reflexivity.
Defined.

(** ** Reading the failure log back *)

Lemma log_lines_app (a b : list string) :
  log_lines (a ++ b) = log_lines a +:+ log_lines b.
Proof.
  induction a as [|pid a IH]; simpl; [done|]. by rewrite IH, !append_assoc.
Qed.

Lemma split_log_lines (pids : list string) :
  Forall (λ pid, all_chars not_newline pid = true) pids →
  PyStr.split (ascii_of_nat 10) (log_lines pids) = (pids ++ [""])%list.
Proof.
  induction pids as [|pid pids IH]; [done|].
  intros [Hpid Hrest]%Forall_cons. simpl.
  change (pid +:+ newline +:+ log_lines pids)
    with (pid +:+ String (ascii_of_nat 10) (log_lines pids)).
  by rewrite (split_app _ pid _ Hpid), IH.
Qed.

(** What [_log_write] appends can be read back: on a log made of the lines
    of earlier batches, the file afterwards, cut at its newlines, gives the
    earlier identifiers followed by the new ones, in order (and an empty
    piece after the last newline), provided no identifier contains a
    newline. *)
Theorem log_write_reads_back (self : StreetViewDownloader)
    (earlier pids : list string) (w : world) :
  text_at (fs w) (log_path self) = Some (log_lines earlier) →
  Forall (λ pid, all_chars not_newline pid = true) (earlier ++ pids) →
  ∃ w' t,
    _log_write self pids w = (Ok tt, w')
    ∧ fs w' !! log_path self = Some (File (Text t))
    ∧ PyStr.split (ascii_of_nat 10) t = (earlier ++ pids ++ [""])%list.
Proof.
  intros Htext Hclean. eexists _, _. split_and!.
  - by apply log_write_text.
  - simpl. by rewrite lookup_insert_eq.
  - by rewrite <- log_lines_app, split_log_lines, <- app_assoc.
Qed.

Lemma log_write_reads_back_witness :
  text_at (fs (World (<["fail.log" := File (Text (log_lines ["a"; "b"]))]> ∅) [] []))
    (log_path (sv [] "fail.log" 2)) = Some (log_lines ["a"; "b"])
  ∧ Forall (λ pid, all_chars not_newline pid = true) (["a"; "b"] ++ ["d"])
  ∧ ∃ w' t,
      _log_write (sv [] "fail.log" 2) ["d"]
        (World (<["fail.log" := File (Text (log_lines ["a"; "b"]))]> ∅) [] [])
      = (Ok tt, w')
      ∧ fs w' !! log_path (sv [] "fail.log" 2) = Some (File (Text t))
      ∧ PyStr.split (ascii_of_nat 10) t = (["a"; "b"] ++ ["d"] ++ [""])%list.
Proof.
  assert (Forall (λ pid, all_chars not_newline pid = true) (["a"; "b"] ++ ["d"]))
    as Hclean by (repeat constructor).
  split; [reflexivity|]. split; [exact Hclean|].
  apply (log_write_reads_back (sv [] "fail.log" 2) ["a"; "b"] ["d"]
           (World (<["fail.log" := File (Text (log_lines ["a"; "b"]))]> ∅) [] []));
    [reflexivity|exact Hclean].
Defined.

(** ** The dedup filter, continued *)

Lemma split_0_no_sep (sep : ascii) (s : string) :
  all_chars (λ c, negb (Ascii.eqb c sep)) (PyStr.split_0 sep s) = true.
Proof.
  induction s as [|c s IH]; simpl; [done|].
  destruct (Ascii.eqb c sep) eqn:Hc; [done|]. simpl. by rewrite Hc, IH.
Qed.

(** An identifier that contains a dot is never filtered out, whatever the
    output directory holds: the names it is compared with are cut at their
    first dot.  (The output directory has to be there for the listing, as it
    is when [download_gsv] calls the filter.) *)
Theorem check_already_keeps_dotted (self : StreetViewDownloader)
    (all_panoids : list string) (w : world) (pid : string) :
  os_path_isdir (fs w) (dir_output self) = true →
  all_chars (λ c, negb (Ascii.eqb c ".")) pid = false →
  pid ∈ all_panoids →
  ∃ rest, _check_already self all_panoids w = (Ok rest, w) ∧ pid ∈ rest.
Proof.
  intros Hdir Hdot Hin. unfold _check_already, bind, os_listdir. rewrite Hdir.
  eexists. split; [reflexivity|].
  rewrite list_elem_of_filter, elem_of_name_r. split; [|done].
  intros [Hemp|(name & _ & Heq)]; [by apply elem_of_empty in Hemp|].
  subst pid. by rewrite split_0_no_sep in Hdot.
Qed.

Lemma check_already_keeps_dotted_witness :
  os_path_isdir (fs (World (<["out/a.b.jpg" := File (Text "")]> (disk [])) [] []))
    (dir_output (sv [] "" 2)) = true
  ∧ all_chars (λ c, negb (Ascii.eqb c ".")) "a.b" = false
  ∧ "a.b" ∈ ["a.b"; "c"]
  ∧ ∃ rest,
      _check_already (sv [] "" 2) ["a.b"; "c"]
        (World (<["out/a.b.jpg" := File (Text "")]> (disk [])) [] [])
      = (Ok rest, World (<["out/a.b.jpg" := File (Text "")]> (disk [])) [] [])
      ∧ "a.b" ∈ rest.
Proof.
  assert ("a.b" ∈ ["a.b"; "c"]) as Hin by (apply list_elem_of_here).
  split; [reflexivity|]. split; [reflexivity|]. split; [exact Hin|].
  apply (check_already_keeps_dotted (sv [] "" 2) ["a.b"; "c"]
           (World (<["out/a.b.jpg" := File (Text "")]> (disk [])) [] []) "a.b");
    [reflexivity|reflexivity|exact Hin].
Defined.

(** ** Styles that are not known *)

Lemma run_unknown_style (style path_input path_output : string) (show_size : Z)
    (w : world) :
  style ≠ "fisheye" → style ≠ "perspective" →
  run style path_input path_output show_size w = (Ok tt, w).
Proof.
  intros Hf Hp. unfold run, bind, cv2_imread.
  by rewrite (proj2 (String.eqb_neq _ _) Hf), (proj2 (String.eqb_neq _ _) Hp).
Qed.

(** [_transform_image] does not check its style: for one that is neither
    [fisheye] nor [perspective] it creates the directory of the style, lists
    the panorama directory, which raises when that directory is missing, reads
    every panorama and writes no image.  (The constructor of
    [ImageTransformer], as everywhere in this model, only takes the image
    in.) *)
Theorem transform_image_unknown_style (self : StreetViewDownloader)
    (style : string) (show_size : Z) (w : world) :
  style ≠ "fisheye" → style ≠ "perspective" →
  _transform_image self style show_size w
  = (let* _ := os_makedirs (os_path_join (dir_output self) style) in
     let* _ := os_listdir (os_path_join (dir_output self) "panorama") in
     ret tt) w.
Proof.
  intros Hf Hp.
  assert (∀ dir_input dir_output names w1,
            for_each (λ name _,
              let '(path_input, path_output, show_size) :=
                process_image dir_input dir_output name show_size in
              run style path_input path_output show_size) names tt w1
            = (Ok tt, w1)) as Hloop.
  { intros dir_input dir_output names w1.
    induction names as [|name names IH]; [done|].
    simpl. unfold bind, process_image. by rewrite run_unknown_style. }
  unfold _transform_image. apply bind_ext. intros _ w1.
  apply bind_ext. intros names w2. apply Hloop.
Qed.

Lemma transform_image_unknown_style_witness :
  "cube" ≠ "fisheye"
  ∧ "cube" ≠ "perspective"
  ∧ _transform_image (sv [] "" 2) "cube" 100 (World disk_rerun [] [])
    = (let* _ := os_makedirs (os_path_join (dir_output (sv [] "" 2)) "cube") in
       let* _ := os_listdir (os_path_join (dir_output (sv [] "" 2)) "panorama") in
       ret tt) (World disk_rerun [] []).
Proof.
  split; [discriminate|]. split; [discriminate|].
  apply (transform_image_unknown_style (sv [] "" 2) "cube" 100
           (World disk_rerun [] [])); discriminate.
Defined.
